(** * Fluid Trading Simulator: the simulation loop, its buffers and the CSV export

    A shallow embedding of [src/components/fluid-trading-simulator.tsx]
    (the exponential-drift component with the cash balance history) and of
    the earlier revision [src/unnamed/part_000] (linear price walk, no
    history).

    Modelling conventions.
    - JavaScript numbers are modelled as exact rationals [Q]; [===] on
      numbers is [Qeq_bool].  Rounding of doubles, [NaN] and the infinities
      are outside the model, so a division by a zero price is not given a
      meaning here (the theorems that depend on a quotient exclude it).
    - A React function component is a record [Render] holding the value of
      every [useState] hook at one render, plus the timer reference.  A
      function defined in the component body closes over the values of the
      render in which it was created: the callback handed to [setInterval]
      by [startSimulation] keeps reading the [Render] of the moment the run
      was started, while functional updates [setX (prev => ...)] act on the
      live value.  Both are explicit below: the callback takes the captured
      render [cl] and the live render [st].
    - [Math.random()] is an input of the tick. *)

From Stdlib Require Import QArith Qround Qpower ZArith List String Ascii Bool Arith Lia Lqa.
From Stdlib Require Import DecimalString DecimalN DecimalPos.
Import ListNotations.

Local Open Scope Q_scope.

(** ** Numbers *)

(** [x < y] on JavaScript numbers. *)
Definition Qltb (x y : Q) : bool := negb (Qle_bool y x).

(** [Math.min] on two numbers. *)
Definition Math_min (x y : Q) : Q := if Qle_bool x y then x else y.

(** [Math.pow] with a natural exponent (the exponent is an array length). *)
Definition Math_pow (b : Q) (n : nat) : Q := Qpower b (Z.of_nat n).

(** ** Data model *)

Inductive TradeStatus : Set := IDLE | BUYING | SELLING | PAUSED.

(** The string stored in the [tradeStatus] hook. *)
Definition statusName (s : TradeStatus) : string :=
  match s with
  | IDLE => "IDLE"
  | BUYING => "BUYING"
  | SELLING => "SELLING"
  | PAUSED => "PAUSED"
  end.

(** An entry of [priceData]: [{ time, price }]. *)
Record PricePoint : Type := { time : nat; price : Q }.

(** An entry of [cashBalanceHistory]:
    [{ time, balance, change, action, price? }]; the initial entry has no
    [price]. *)
Record BalanceEvent : Type := {
  etime : nat;
  balance : Q;
  change : Q;
  action : string;
  eprice : option Q
}.

(** The values of the [useState] hooks at one render. *)
Record Render : Type := {
  assetName : string;
  anchorPrice : Q;
  microTradeAmount : Q;
  tradeInterval : Q;
  isRunning : bool;
  currentPrice : Q;
  cashBalance : Q;
  sharesHeld : Q;
  tradeStatus : TradeStatus;
  priceData : list PricePoint;
  cashBalanceHistory : list BalanceEvent
}.

(** The component between two events: the live hook values and the interval
    scheduled through [timerRef], represented by the render its callback
    closed over ([None] when no interval is scheduled). *)
Record Component : Type := {
  hooks : Render;
  timerRef : option Render
}.

(** *** State setters *)

Definition setAssetName (v : string) (r : Render) : Render :=
  {| assetName := v; anchorPrice := anchorPrice r;
     microTradeAmount := microTradeAmount r; tradeInterval := tradeInterval r;
     isRunning := isRunning r; currentPrice := currentPrice r;
     cashBalance := cashBalance r; sharesHeld := sharesHeld r;
     tradeStatus := tradeStatus r; priceData := priceData r;
     cashBalanceHistory := cashBalanceHistory r |}.

Definition setAnchorPrice (v : Q) (r : Render) : Render :=
  {| assetName := assetName r; anchorPrice := v;
     microTradeAmount := microTradeAmount r; tradeInterval := tradeInterval r;
     isRunning := isRunning r; currentPrice := currentPrice r;
     cashBalance := cashBalance r; sharesHeld := sharesHeld r;
     tradeStatus := tradeStatus r; priceData := priceData r;
     cashBalanceHistory := cashBalanceHistory r |}.

Definition setMicroTradeAmount (v : Q) (r : Render) : Render :=
  {| assetName := assetName r; anchorPrice := anchorPrice r;
     microTradeAmount := v; tradeInterval := tradeInterval r;
     isRunning := isRunning r; currentPrice := currentPrice r;
     cashBalance := cashBalance r; sharesHeld := sharesHeld r;
     tradeStatus := tradeStatus r; priceData := priceData r;
     cashBalanceHistory := cashBalanceHistory r |}.

Definition setTradeInterval (v : Q) (r : Render) : Render :=
  {| assetName := assetName r; anchorPrice := anchorPrice r;
     microTradeAmount := microTradeAmount r; tradeInterval := v;
     isRunning := isRunning r; currentPrice := currentPrice r;
     cashBalance := cashBalance r; sharesHeld := sharesHeld r;
     tradeStatus := tradeStatus r; priceData := priceData r;
     cashBalanceHistory := cashBalanceHistory r |}.

Definition setIsRunning (v : bool) (r : Render) : Render :=
  {| assetName := assetName r; anchorPrice := anchorPrice r;
     microTradeAmount := microTradeAmount r; tradeInterval := tradeInterval r;
     isRunning := v; currentPrice := currentPrice r;
     cashBalance := cashBalance r; sharesHeld := sharesHeld r;
     tradeStatus := tradeStatus r; priceData := priceData r;
     cashBalanceHistory := cashBalanceHistory r |}.

Definition setCurrentPrice (v : Q) (r : Render) : Render :=
  {| assetName := assetName r; anchorPrice := anchorPrice r;
     microTradeAmount := microTradeAmount r; tradeInterval := tradeInterval r;
     isRunning := isRunning r; currentPrice := v;
     cashBalance := cashBalance r; sharesHeld := sharesHeld r;
     tradeStatus := tradeStatus r; priceData := priceData r;
     cashBalanceHistory := cashBalanceHistory r |}.

(** [setCashBalance (prev => f prev)]; a plain [setCashBalance v] is
    [setCashBalance (fun _ => v)]. *)
Definition setCashBalance (f : Q -> Q) (r : Render) : Render :=
  {| assetName := assetName r; anchorPrice := anchorPrice r;
     microTradeAmount := microTradeAmount r; tradeInterval := tradeInterval r;
     isRunning := isRunning r; currentPrice := currentPrice r;
     cashBalance := f (cashBalance r); sharesHeld := sharesHeld r;
     tradeStatus := tradeStatus r; priceData := priceData r;
     cashBalanceHistory := cashBalanceHistory r |}.

Definition setSharesHeld (f : Q -> Q) (r : Render) : Render :=
  {| assetName := assetName r; anchorPrice := anchorPrice r;
     microTradeAmount := microTradeAmount r; tradeInterval := tradeInterval r;
     isRunning := isRunning r; currentPrice := currentPrice r;
     cashBalance := cashBalance r; sharesHeld := f (sharesHeld r);
     tradeStatus := tradeStatus r; priceData := priceData r;
     cashBalanceHistory := cashBalanceHistory r |}.

Definition setTradeStatus (v : TradeStatus) (r : Render) : Render :=
  {| assetName := assetName r; anchorPrice := anchorPrice r;
     microTradeAmount := microTradeAmount r; tradeInterval := tradeInterval r;
     isRunning := isRunning r; currentPrice := currentPrice r;
     cashBalance := cashBalance r; sharesHeld := sharesHeld r;
     tradeStatus := v; priceData := priceData r;
     cashBalanceHistory := cashBalanceHistory r |}.

Definition setPriceData (f : list PricePoint -> list PricePoint) (r : Render) : Render :=
  {| assetName := assetName r; anchorPrice := anchorPrice r;
     microTradeAmount := microTradeAmount r; tradeInterval := tradeInterval r;
     isRunning := isRunning r; currentPrice := currentPrice r;
     cashBalance := cashBalance r; sharesHeld := sharesHeld r;
     tradeStatus := tradeStatus r; priceData := f (priceData r);
     cashBalanceHistory := cashBalanceHistory r |}.

Definition setCashBalanceHistory (f : list BalanceEvent -> list BalanceEvent) (r : Render) : Render :=
  {| assetName := assetName r; anchorPrice := anchorPrice r;
     microTradeAmount := microTradeAmount r; tradeInterval := tradeInterval r;
     isRunning := isRunning r; currentPrice := currentPrice r;
     cashBalance := cashBalance r; sharesHeld := sharesHeld r;
     tradeStatus := tradeStatus r; priceData := priceData r;
     cashBalanceHistory := f (cashBalanceHistory r) |}.

(** ** The interval callback *)

(** [const growthRate = 0.002]. *)
Definition growthRate : Q := 2 # 1000.

(** Price generation of the exponential-drift component.  [priceData] and
    [anchorPrice] are read from the scope of [startSimulation], hence from
    the captured render [cl]; [random] is the value of [Math.random()]. *)
Definition generatePrice (cl : Render) (random : Q) : Q :=
  let timeElapsed := List.length (priceData cl) in
  let exponentialBase := anchorPrice cl * Math_pow (1 + growthRate) timeElapsed in
  let randomChange := (random - (1 # 2)) * 2 in
  let volatility := exponentialBase * (15 # 1000) in
  exponentialBase + randomChange * volatility.

(** [newData.slice(k)]: the elements from index [k] on. *)
Definition slice {A : Type} (l : list A) (k : nat) : list A := skipn k l.

(** The updater passed to [setPriceData]: append the point, keep the last
    50.  Identical in both source files. *)
Definition appendPricePoint (newPrice : Q) (prevData : list PricePoint) : list PricePoint :=
  let newData := prevData ++ [ {| time := List.length prevData; price := newPrice |} ] in
  if (50 <? List.length newData)%nat
  then slice newData (List.length newData - 50)
  else newData.

(** The trade rule.  The conditions read [anchorPrice], [cashBalance],
    [microTradeAmount] and [sharesHeld] of the captured render; the
    functional updates act on the live state.  An inner [if] has no [else]:
    in the buy zone without cash, and in the sell zone without shares,
    nothing is set.  Identical in both source files. *)
Definition executeTrade (cl : Render) (newPrice : Q) (st : Render) : Render :=
  if Qltb newPrice (anchorPrice cl) then
    if Qle_bool (microTradeAmount cl) (cashBalance cl) then
      let sharesToBuy := microTradeAmount cl / newPrice in
      setTradeStatus BUYING
        (setSharesHeld (fun prev => prev + sharesToBuy)
           (setCashBalance (fun prev => prev - microTradeAmount cl) st))
    else st
  else if Qltb (anchorPrice cl) newPrice then
    if Qltb 0 (sharesHeld cl) then
      let sharesToSell := Math_min (sharesHeld cl) (microTradeAmount cl / newPrice) in
      let sellValue := sharesToSell * newPrice in
      setTradeStatus SELLING
        (setSharesHeld (fun prev => prev - sharesToSell)
           (setCashBalance (fun prev => prev + sellValue) st))
    else st
  else setTradeStatus IDLE st.

(** [prevHistory[prevHistory.length - 1]?.balance || 1000]: the balance of
    the last entry, replaced by 1000 when there is no entry or when that
    balance is falsy, that is, zero. *)
Definition lastBalanceOf (prevHistory : list BalanceEvent) : Q :=
  match prevHistory with
  | [] => 1000
  | _ :: _ =>
      match nth_error prevHistory (List.length prevHistory - 1) with
      | Some e => if Qeq_bool (balance e) 0 then 1000 else balance e
      | None => 1000
      end
  end.

(** The balance projected by the history updater, recomputed from the
    captured render. *)
Definition projectedBalance (cl : Render) (newPrice : Q) : Q :=
  cashBalance cl
  + (if Qltb newPrice (anchorPrice cl) && Qle_bool (microTradeAmount cl) (cashBalance cl)
     then - microTradeAmount cl else 0)
  + (if Qltb (anchorPrice cl) newPrice && Qltb 0 (sharesHeld cl)
     then Math_min (sharesHeld cl) (microTradeAmount cl / newPrice) * newPrice else 0).

(** The updater passed to [setCashBalanceHistory].  [action] is the
    [tradeStatus] of the captured render. *)
Definition recordBalance (cl : Render) (newPrice : Q) (prevHistory : list BalanceEvent)
  : list BalanceEvent :=
  let lastBalance := lastBalanceOf prevHistory in
  let currentBalance := projectedBalance cl newPrice in
  if negb (Qeq_bool currentBalance lastBalance) then
    prevHistory ++
      [ {| etime := List.length prevHistory;
           balance := currentBalance;
           change := currentBalance - lastBalance;
           action := statusName (tradeStatus cl);
           eprice := Some newPrice |} ]
  else prevHistory.

(** The body of the interval callback once [newPrice] is known. *)
Definition tickAt (cl : Render) (newPrice : Q) (st : Render) : Render :=
  let st1 := setCurrentPrice newPrice st in
  let st2 := setPriceData (appendPricePoint newPrice) st1 in
  let st3 := executeTrade cl newPrice st2 in
  setCashBalanceHistory (recordBalance cl newPrice) st3.

(** The interval callback of the exponential-drift component. *)
Definition intervalCallback (cl : Render) (random : Q) (st : Render) : Render :=
  tickAt cl (generatePrice cl random) st.

(** ** The component: handlers, effect and events *)

(** The hook values after mounting with the default settings. *)
Definition initialRender : Render :=
  {| assetName := "BTC"; anchorPrice := 100; microTradeAmount := 1;
     tradeInterval := 3; isRunning := false; currentPrice := 100;
     cashBalance := 1000; sharesHeld := 0; tradeStatus := IDLE;
     priceData := [ {| time := 0; price := 100 |} ];
     cashBalanceHistory :=
       [ {| etime := 0; balance := 1000; change := 0; action := "INITIAL";
            eprice := None |} ] |}.

Definition initialComponent : Component :=
  {| hooks := initialRender; timerRef := None |}.

(** [startSimulation]: the interval callback closes over the render in
    which the handler was created, that is, the current one. *)
Definition startSimulation (c : Component) : Component :=
  if isRunning (hooks c) then c
  else {| hooks := setIsRunning true (hooks c); timerRef := Some (hooks c) |}.

(** [pauseSimulation]: [clearInterval] unschedules the callback. *)
Definition pauseSimulation (c : Component) : Component :=
  if negb (isRunning (hooks c)) then c
  else {| hooks := setTradeStatus PAUSED (setIsRunning false (hooks c));
          timerRef := None |}.

Definition resetSimulation (c : Component) : Component :=
  let h := hooks c in
  {| hooks :=
       setCashBalanceHistory
         (fun _ => [ {| etime := 0; balance := 1000; change := 0;
                        action := "INITIAL"; eprice := None |} ])
         (setPriceData (fun _ => [ {| time := 0; price := anchorPrice h |} ])
            (setTradeStatus IDLE
               (setSharesHeld (fun _ => 0)
                  (setCashBalance (fun _ => 1000)
                     (setCurrentPrice (anchorPrice h)
                        (setIsRunning false h))))));
     timerRef := None |}.

(** The body of the effect with dependencies [anchorPrice, isRunning]. *)
Definition anchorEffect (r : Render) : Render :=
  if negb (isRunning r)
  then setPriceData (fun _ => [ {| time := 0; price := anchorPrice r |} ])
         (setCurrentPrice (anchorPrice r) r)
  else r.

(** After a render the effect runs when one of its dependencies changed. *)
Definition runEffects (before after : Render) : Render :=
  if negb (Qeq_bool (anchorPrice before) (anchorPrice after))
     || negb (Bool.eqb (isRunning before) (isRunning after))
  then anchorEffect after
  else after.

(** What can happen to the component: the three buttons, the four inputs
    (disabled while running) and the timer firing with a random draw. *)
Inductive Event : Type :=
  | Start
  | Pause
  | Reset
  | Tick (random : Q)
  | ChangeAssetName (v : string)
  | ChangeAnchorPrice (v : Q)
  | ChangeMicroTradeAmount (v : Q)
  | ChangeTradeInterval (v : Q).

Definition whenStopped (f : Render -> Render) (c : Component) : Component :=
  if isRunning (hooks c) then c
  else {| hooks := f (hooks c); timerRef := timerRef c |}.

(** The handler of an event; the Start button is shown only when stopped
    and the Pause button only when running, which the handlers check again
    themselves. *)
Definition handle (e : Event) (c : Component) : Component :=
  match e with
  | Start => startSimulation c
  | Pause => pauseSimulation c
  | Reset => resetSimulation c
  | Tick random =>
      match timerRef c with
      | Some cl => {| hooks := intervalCallback cl random (hooks c);
                      timerRef := timerRef c |}
      | None => c
      end
  | ChangeAssetName v => whenStopped (setAssetName v) c
  | ChangeAnchorPrice v => whenStopped (setAnchorPrice v) c
  | ChangeMicroTradeAmount v => whenStopped (setMicroTradeAmount v) c
  | ChangeTradeInterval v => whenStopped (setTradeInterval v) c
  end.

(** One event: the handler, then the render and its effect. *)
Definition step (c : Component) (e : Event) : Component :=
  let c' := handle e c in
  {| hooks := runEffects (hooks c) (hooks c'); timerRef := timerRef c' |}.

Definition run (es : list Event) (c : Component) : Component :=
  fold_left step es c.

(** The timer firing with a given price in place of the generated one. *)
Definition fireAt (c : Component) (newPrice : Q) : Component :=
  match timerRef c with
  | Some cl => {| hooks := tickAt cl newPrice (hooks c); timerRef := timerRef c |}
  | None => c
  end.

(** ** The CSV export *)

Definition digitChar (d : Z) : ascii := ascii_of_nat (48 + Z.to_nat d).

(** The [k] low-order decimal digits of [m], most significant first. *)
Fixpoint lowDigits (k : nat) (m : Z) : string :=
  match k with
  | O => EmptyString
  | S k' => (lowDigits k' (m / 10) ++ String (digitChar (m mod 10)) EmptyString)%string
  end.

(** Decimal digits of a natural number, as [String(n)] prints an index. *)
Definition decimalOfNat (n : nat) : string :=
  NilZero.string_of_uint (Nat.to_uint n).

Definition decimalOfZ (n : Z) : string :=
  NilZero.string_of_uint (N.to_uint (Z.to_N n)).

(** A digit string without its trailing zeros. *)
Fixpoint stripTrailingZeros (s : string) : string :=
  match s with
  | EmptyString => EmptyString
  | String c s' =>
      match stripTrailingZeros s' with
      | EmptyString => if Ascii.eqb c "0" then EmptyString else String c EmptyString
      | String c' r => String c (String c' r)
      end
  end.

(** [Number::toString] on an integer [m] of more than 21 digits: with [n]
    the number of digits of [m] and [s] its digits up to the last one that
    is not zero, the first digit of [s], then a point and the other digits
    of [s] when there are any, then [e+] and the numeral of [n - 1]. *)
Definition exponentNotation (m : Z) : string :=
  let digits := decimalOfZ m in
  let n := String.length digits in
  match stripTrailingZeros digits with
  | EmptyString => "0"
  | String d EmptyString => String d ("e+" ++ decimalOfNat (n - 1))
  | String d rest => String d ("." ++ rest ++ "e+" ++ decimalOfNat (n - 1))
  end.

(** [x.toFixed(fractionDigits)]: the sign, then for a magnitude of 10^21
    or more the exponent notation of [Number::toString], and below 10^21
    the integer [n] nearest to [|x| * 10^fractionDigits] (the larger one on
    a tie) printed with a point before its last [fractionDigits] digits.
    Every double of 10^21 or more is an integer, and the exponent notation
    is taken of the integer part of the exact value. *)
Definition toFixed (x : Q) (fractionDigits : nat) : string :=
  let neg := Qltb x 0 in
  let ax := if neg then - x else x in
  let m :=
    if Qle_bool (inject_Z (10 ^ 21)) ax then exponentNotation (Qfloor ax)
    else
      let scale := (10 ^ Z.of_nat fractionDigits)%Z in
      let n := Qfloor (ax * inject_Z scale + (1 # 2)) in
      (decimalOfZ (n / scale) ++
       match fractionDigits with
       | O => EmptyString
       | S _ => "." ++ lowDigits fractionDigits n
       end)%string in
  if neg then ("-" ++ m)%string else m.

(** The line feed used by [join("\n")]. *)
Definition newline : string := String (ascii_of_nat 10) EmptyString.

(** [array.join(sep)] on an array of strings. *)
Definition join (sep : string) (l : list string) : string := String.concat sep l.

Definition csvHeader : string :=
  join "," ["Time"; "Cash Balance"; "Change"; "Action"; "Asset Price"]%string.

(** One mapped entry of [exportCashBalanceData];
    [entry.price?.toFixed(2) || "N/A"] is the formatted price when there is
    one (never an empty string) and ["N/A"] otherwise. *)
Definition csvRow (entry : BalanceEvent) : string :=
  join ","
    [ decimalOfNat (etime entry);
      toFixed (balance entry) 2;
      toFixed (change entry) 2;
      action entry;
      match eprice entry with
      | Some p => toFixed p 2
      | None => "N/A"%string
      end ].

(** The [csvContent] built by [exportCashBalanceData]. *)
Definition csvContent (history : list BalanceEvent) : string :=
  join newline (csvHeader :: map csvRow history).

(** The text of the file downloaded by [exportCashBalanceData]. *)
Definition exportCashBalanceData (r : Render) : string :=
  csvContent (cashBalanceHistory r).

(** ** The earlier revision of the component ([src/unnamed/part_000])

    It has no [cashBalanceHistory] hook and no export, and its price is a
    step from [currentPrice] as the callback sees it.  The record [Render]
    is shared; these handlers never touch its [cashBalanceHistory] field. *)

Module Linear.

Definition generatePrice (cl : Render) (random : Q) : Q :=
  let randomChange := (random - (1 # 2)) * 2 in
  let volatility := anchorPrice cl * (1 # 100) in
  currentPrice cl + randomChange * volatility.

Definition tickAt (cl : Render) (newPrice : Q) (st : Render) : Render :=
  let st1 := setCurrentPrice newPrice st in
  let st2 := setPriceData (appendPricePoint newPrice) st1 in
  executeTrade cl newPrice st2.

Definition intervalCallback (cl : Render) (random : Q) (st : Render) : Render :=
  tickAt cl (generatePrice cl random) st.

Definition resetSimulation (c : Component) : Component :=
  let h := hooks c in
  {| hooks :=
       setPriceData (fun _ => [ {| time := 0; price := anchorPrice h |} ])
         (setTradeStatus IDLE
            (setSharesHeld (fun _ => 0)
               (setCashBalance (fun _ => 1000)
                  (setCurrentPrice (anchorPrice h)
                     (setIsRunning false h)))));
     timerRef := None |}.

Definition handle (e : Event) (c : Component) : Component :=
  match e with
  | Start => startSimulation c
  | Pause => pauseSimulation c
  | Reset => resetSimulation c
  | Tick random =>
      match timerRef c with
      | Some cl => {| hooks := intervalCallback cl random (hooks c);
                      timerRef := timerRef c |}
      | None => c
      end
  | ChangeAssetName v => whenStopped (setAssetName v) c
  | ChangeAnchorPrice v => whenStopped (setAnchorPrice v) c
  | ChangeMicroTradeAmount v => whenStopped (setMicroTradeAmount v) c
  | ChangeTradeInterval v => whenStopped (setTradeInterval v) c
  end.

Definition step (c : Component) (e : Event) : Component :=
  let c' := handle e c in
  {| hooks := runEffects (hooks c) (hooks c'); timerRef := timerRef c' |}.

Definition run (es : list Event) (c : Component) : Component :=
  fold_left step es c.

End Linear.

(** ** Auxiliary notions used by the statements *)

(** The last [n] elements of a list (all of it when it is shorter). *)
Definition keepLast {A : Type} (n : nat) (l : list A) : list A :=
  skipn (List.length l - n) l.

(** The timer firing once per price of a list, in order. *)
Definition fireAll (prices : list Q) (c : Component) : Component :=
  fold_left fireAt prices c.

(** The callback body run once per price of a list on the same closure. *)
Definition tickAll (cl : Render) (prices : list Q) (st : Render) : Render :=
  fold_left (fun s p => tickAt cl p s) prices st.

Definition isDigit (c : ascii) : Prop := (48 <= nat_of_ascii c <= 57)%nat.

(** ** The derived values of the view *)

(** [const totalValue = cashBalance + sharesHeld * currentPrice]. *)
Definition totalValue (r : Render) : Q :=
  cashBalance r + sharesHeld r * currentPrice r.

(** The zone named in the portfolio panel:
    [currentPrice < anchorPrice ? BUY ZONE : SELL ZONE]. *)
Definition zoneLabel (r : Render) : string :=
  if Qltb (currentPrice r) (anchorPrice r) then "BUY ZONE" else "SELL ZONE".

(** The two shaded areas of the chart: the green one is displayed when
    [currentPrice < anchorPrice], the red one when
    [currentPrice > anchorPrice]. *)
Definition buyAreaDisplayed (r : Render) : bool :=
  Qltb (currentPrice r) (anchorPrice r).

Definition sellAreaDisplayed (r : Render) : bool :=
  Qltb (anchorPrice r) (currentPrice r).

(** The export button is rendered when
    [!isRunning && cashBalanceHistory.length > 1]. *)
Definition exportShown (r : Render) : bool :=
  negb (isRunning r) && (1 <? List.length (cashBalanceHistory r))%nat.

(** The bounds of the Y axis:
    [(dataMin) => Math.floor(dataMin * 0.95)] and
    [(dataMax) => Math.ceil(dataMax * 1.05)]. *)
Definition yAxisMin (dataMin : Q) : Z := Qfloor (dataMin * (95 # 100)).

Definition yAxisMax (dataMax : Q) : Z := Qceiling (dataMax * (105 # 100)).

(** ** Shapes of reachable states, used by the statements *)

(** The first entry of every history. *)
Definition initialEntry : BalanceEvent :=
  {| etime := 0; balance := 1000; change := 0; action := "INITIAL";
     eprice := None |}.

(** A render whose price and series sit on the anchor. *)
Definition rebased (r : Render) : Prop :=
  currentPrice r == anchorPrice r /\
  exists p, priceData r = [ {| time := 0; price := p |} ] /\ p == anchorPrice r.

(** The four settings of a render. *)
Definition settings (r : Render) : string * Q * Q * Q :=
  (assetName r, anchorPrice r, microTradeAmount r, tradeInterval r).

(** The status a stopped component can show. *)
Definition idleOrPaused (s : TradeStatus) : Prop := s = IDLE \/ s = PAUSED.

(** The timer and the running flag agree; a stopped component sits on its
    anchor, and the render captured by a scheduled callback is such a
    stopped render with the settings still in force. *)
Definition coherent (c : Component) : Prop :=
  match timerRef c with
  | None =>
      isRunning (hooks c) = false /\ rebased (hooks c) /\
      idleOrPaused (tradeStatus (hooks c))
  | Some cl =>
      isRunning (hooks c) = true /\ rebased cl /\
      idleOrPaused (tradeStatus cl) /\ settings cl = settings (hooks c)
  end.

(** An entry written by the history updater of a run. *)
Definition loggedByTick (e : BalanceEvent) : Prop :=
  (action e = "IDLE"%string \/ action e = "PAUSED"%string) /\
  (exists p, eprice e = Some p) /\
  ~ change e == 0.

Definition historyShape (history : list BalanceEvent) : Prop :=
  exists rest, history = initialEntry :: rest /\ Forall loggedByTick rest.

(** The number a decimal numeral denotes, when the string is one. *)
Definition numeralValue (s : string) : option N :=
  option_map N.of_uint (NilZero.uint_of_string s).

(** Occurrences of a character in a string. *)
Fixpoint countChar (c : ascii) (s : string) : nat :=
  match s with
  | EmptyString => 0
  | String a s' => (if Ascii.eqb a c then 1 else 0) + countChar c s'
  end.

(** * Properties *)

(** ** Comparisons *)

Lemma Qltb_lt (x y : Q) : Qltb x y = true <-> x < y.
Proof.
  unfold Qltb. rewrite negb_true_iff. split; intro H.
  - apply Qnot_le_lt. intro Hle. apply Qle_bool_iff in Hle. congruence.
  - destruct (Qle_bool y x) eqn:E; [|reflexivity].
    apply Qle_bool_iff in E. exfalso. exact (Qlt_not_le _ _ H E).
Qed.

Lemma Qltb_ge (x y : Q) : Qltb x y = false <-> y <= x.
Proof.
  unfold Qltb. rewrite negb_false_iff. apply Qle_bool_iff.
Qed.

Lemma Qle_bool_gt (x y : Q) : Qle_bool x y = false <-> y < x.
Proof.
  rewrite <- Qltb_lt. unfold Qltb. now rewrite negb_true_iff.
Qed.

(** ** The trade rule *)

Section TradeRule.

Variables (cl : Render) (newPrice : Q) (st : Render).

Lemma executeTrade_buy :
  newPrice < anchorPrice cl -> microTradeAmount cl <= cashBalance cl ->
  executeTrade cl newPrice st =
    setTradeStatus BUYING
      (setSharesHeld (fun prev => prev + microTradeAmount cl / newPrice)
         (setCashBalance (fun prev => prev - microTradeAmount cl) st)).
Proof.
  intros Hlt Hle. unfold executeTrade.
  apply Qltb_lt in Hlt. apply Qle_bool_iff in Hle.
  now rewrite Hlt, Hle.
Qed.

Lemma executeTrade_sell :
  anchorPrice cl < newPrice -> 0 < sharesHeld cl ->
  executeTrade cl newPrice st =
    let sharesToSell := Math_min (sharesHeld cl) (microTradeAmount cl / newPrice) in
    setTradeStatus SELLING
      (setSharesHeld (fun prev => prev - sharesToSell)
         (setCashBalance (fun prev => prev + sharesToSell * newPrice) st)).
Proof.
  intros Hgt Hpos. unfold executeTrade.
  assert (Hnlt : Qltb newPrice (anchorPrice cl) = false)
    by (apply Qltb_ge; now apply Qlt_le_weak).
  apply Qltb_lt in Hgt. apply Qltb_lt in Hpos.
  now rewrite Hnlt, Hgt, Hpos.
Qed.

Lemma executeTrade_equal :
  newPrice == anchorPrice cl ->
  executeTrade cl newPrice st = setTradeStatus IDLE st.
Proof.
  intros Heq. unfold executeTrade.
  assert (H1 : Qltb newPrice (anchorPrice cl) = false)
    by (apply Qltb_ge; rewrite Heq; apply Qle_refl).
  assert (H2 : Qltb (anchorPrice cl) newPrice = false)
    by (apply Qltb_ge; rewrite Heq; apply Qle_refl).
  now rewrite H1, H2.
Qed.

Lemma executeTrade_no_cash :
  newPrice < anchorPrice cl -> cashBalance cl < microTradeAmount cl ->
  executeTrade cl newPrice st = st.
Proof.
  intros Hlt Hno. unfold executeTrade.
  apply Qltb_lt in Hlt. apply Qle_bool_gt in Hno.
  now rewrite Hlt, Hno.
Qed.

Lemma executeTrade_no_shares :
  anchorPrice cl < newPrice -> sharesHeld cl <= 0 ->
  executeTrade cl newPrice st = st.
Proof.
  intros Hgt Hno. unfold executeTrade.
  assert (Hnlt : Qltb newPrice (anchorPrice cl) = false)
    by (apply Qltb_ge; now apply Qlt_le_weak).
  apply Qltb_lt in Hgt. apply Qltb_ge in Hno.
  now rewrite Hnlt, Hgt, Hno.
Qed.

(** The five cases of the rule, as they show in the status and in the two
    balances. *)
Lemma executeTrade_cases :
  let st' := executeTrade cl newPrice st in
  (newPrice < anchorPrice cl /\ microTradeAmount cl <= cashBalance cl ->
     tradeStatus st' = BUYING) /\
  (anchorPrice cl < newPrice /\ 0 < sharesHeld cl ->
     tradeStatus st' = SELLING) /\
  (newPrice == anchorPrice cl ->
     tradeStatus st' = IDLE /\
     cashBalance st' = cashBalance st /\ sharesHeld st' = sharesHeld st) /\
  ((newPrice < anchorPrice cl /\ cashBalance cl < microTradeAmount cl) \/
   (anchorPrice cl < newPrice /\ sharesHeld cl <= 0) ->
     tradeStatus st' = tradeStatus st /\
     cashBalance st' = cashBalance st /\ sharesHeld st' = sharesHeld st).
Proof.
  cbv zeta. repeat split.
  - intros [H1 H2]. now rewrite executeTrade_buy.
  - intros [H1 H2]. now rewrite executeTrade_sell.
  - now rewrite executeTrade_equal.
  - now rewrite executeTrade_equal.
  - now rewrite executeTrade_equal.
  - destruct H as [[H1 H2]|[H1 H2]];
      [rewrite executeTrade_no_cash | rewrite executeTrade_no_shares]; auto.
  - destruct H as [[H1 H2]|[H1 H2]];
      [rewrite executeTrade_no_cash | rewrite executeTrade_no_shares]; auto.
  - destruct H as [[H1 H2]|[H1 H2]];
      [rewrite executeTrade_no_cash | rewrite executeTrade_no_shares]; auto.
Qed.

End TradeRule.

(** The rest of the callback leaves the status and the two balances as the
    trade rule set them. *)
Lemma tickAt_trade (cl : Render) (newPrice : Q) (st : Render) :
  let st0 := setPriceData (appendPricePoint newPrice) (setCurrentPrice newPrice st) in
  tradeStatus (tickAt cl newPrice st) = tradeStatus (executeTrade cl newPrice st0) /\
  cashBalance (tickAt cl newPrice st) = cashBalance (executeTrade cl newPrice st0) /\
  sharesHeld (tickAt cl newPrice st) = sharesHeld (executeTrade cl newPrice st0).
Proof. now unfold tickAt. Qed.

(** C1 (as amended).  On a tick whose callback reads the current anchor,
    trade amount, cash and shares (the first tick of a run is one), the
    status becomes BUYING when the price is below the anchor and the cash
    covers the trade amount, SELLING when the price is above the anchor and
    shares are held, IDLE when the price equals the anchor; in the two
    remaining cases (buy zone without enough cash, sell zone without shares)
    the status keeps the value it had before the tick and neither balance
    changes. *)
Theorem trade_rule_status (cl : Render) (newPrice : Q) (st : Render) :
  anchorPrice cl == anchorPrice st ->
  microTradeAmount cl == microTradeAmount st ->
  cashBalance cl == cashBalance st ->
  sharesHeld cl == sharesHeld st ->
  let st' := tickAt cl newPrice st in
  (newPrice < anchorPrice st /\ microTradeAmount st <= cashBalance st ->
     tradeStatus st' = BUYING) /\
  (anchorPrice st < newPrice /\ 0 < sharesHeld st ->
     tradeStatus st' = SELLING) /\
  (newPrice == anchorPrice st ->
     tradeStatus st' = IDLE /\
     cashBalance st' = cashBalance st /\ sharesHeld st' = sharesHeld st) /\
  ((newPrice < anchorPrice st /\ cashBalance st < microTradeAmount st) \/
   (anchorPrice st < newPrice /\ sharesHeld st <= 0) ->
     tradeStatus st' = tradeStatus st /\
     cashBalance st' = cashBalance st /\ sharesHeld st' = sharesHeld st).
Proof.
  intros Ea Em Ec Es. cbv zeta.
  destruct (tickAt_trade cl newPrice st) as (-> & -> & ->).
  pose proof (executeTrade_cases cl newPrice
                (setPriceData (appendPricePoint newPrice) (setCurrentPrice newPrice st)))
    as (Hbuy & Hsell & Heq & Hnone).
  cbv zeta in Hbuy, Hsell, Heq, Hnone.
  rewrite Ea in Hbuy, Hsell, Heq, Hnone.
  rewrite Em, Ec in Hbuy, Hnone.
  rewrite Es in Hsell, Hnone.
  split; [exact Hbuy|]. split; [exact Hsell|]. split; [exact Heq | exact Hnone].
Qed.

(** The rule on the first tick of a restarted run, whose status is PAUSED:
    the callback closed over the render of the restart. *)
Lemma trade_rule_status_witness :
  let cl := hooks (run [Start; Pause] initialComponent) in
  let st := hooks (run [Start; Pause; Start] initialComponent) in
  let st' := tickAt cl 110 st in
  (110 < anchorPrice st /\ microTradeAmount st <= cashBalance st ->
     tradeStatus st' = BUYING) /\
  (anchorPrice st < 110 /\ 0 < sharesHeld st ->
     tradeStatus st' = SELLING) /\
  (110 == anchorPrice st ->
     tradeStatus st' = IDLE /\
     cashBalance st' = cashBalance st /\ sharesHeld st' = sharesHeld st) /\
  ((110 < anchorPrice st /\ cashBalance st < microTradeAmount st) \/
   (anchorPrice st < 110 /\ sharesHeld st <= 0) ->
     tradeStatus st' = tradeStatus st /\
     cashBalance st' = cashBalance st /\ sharesHeld st' = sharesHeld st).
Proof.
  apply (trade_rule_status
           (hooks (run [Start; Pause] initialComponent)) 110
           (hooks (run [Start; Pause; Start] initialComponent)));
    vm_compute; reflexivity.
Defined.

(** C1, as stated, fails: after a pause and a restart a sell-zone tick with
    no shares (none captured, none held) leaves the status PAUSED, not
    IDLE. *)
Lemma sell_zone_without_shares_keeps_status :
  let c := run [Start; Pause; Start] initialComponent in
  let c' := step c (Tick (1 # 2)) in
  anchorPrice (hooks c) < currentPrice (hooks c') /\
  sharesHeld (hooks c) == 0 /\
  timerRef c = Some (hooks (run [Start; Pause] initialComponent)) /\
  sharesHeld (hooks (run [Start; Pause] initialComponent)) == 0 /\
  tradeStatus (hooks c') = PAUSED /\
  tradeStatus (hooks c') <> IDLE.
Proof.
  vm_compute. repeat split; discriminate.
Qed.

(** The earlier revision has the same rule. *)
Lemma linear_trade_rule_status (cl : Render) (newPrice : Q) (st : Render) :
  anchorPrice cl == anchorPrice st ->
  microTradeAmount cl == microTradeAmount st ->
  cashBalance cl == cashBalance st ->
  sharesHeld cl == sharesHeld st ->
  let st' := Linear.tickAt cl newPrice st in
  (newPrice < anchorPrice st /\ microTradeAmount st <= cashBalance st ->
     tradeStatus st' = BUYING) /\
  (anchorPrice st < newPrice /\ 0 < sharesHeld st ->
     tradeStatus st' = SELLING) /\
  (newPrice == anchorPrice st ->
     tradeStatus st' = IDLE /\
     cashBalance st' = cashBalance st /\ sharesHeld st' = sharesHeld st) /\
  ((newPrice < anchorPrice st /\ cashBalance st < microTradeAmount st) \/
   (anchorPrice st < newPrice /\ sharesHeld st <= 0) ->
     tradeStatus st' = tradeStatus st /\
     cashBalance st' = cashBalance st /\ sharesHeld st' = sharesHeld st).
Proof.
  intros Ea Em Ec Es. cbv zeta.
  pose proof (executeTrade_cases cl newPrice
                (setPriceData (appendPricePoint newPrice) (setCurrentPrice newPrice st)))
    as (Hbuy & Hsell & Heq & Hnone).
  cbv zeta in Hbuy, Hsell, Heq, Hnone.
  rewrite Ea in Hbuy, Hsell, Heq, Hnone.
  rewrite Em, Ec in Hbuy, Hnone.
  rewrite Es in Hsell, Hnone.
  split; [exact Hbuy|]. split; [exact Hsell|]. split; [exact Heq | exact Hnone].
Qed.

(** ** Value of a BUY *)

(** C7.  A BUY is value-neutral: when the price [p] is not zero, lies below
    the anchor, and the cash read by the callback covers the trade amount,
    the tick takes [microTradeAmount] from the cash, adds
    [microTradeAmount / p] shares, and leaves [cashBalance + sharesHeld * p]
    as it was (exact arithmetic). *)
Theorem buy_value_neutral (cl : Render) (p : Q) (st : Render) :
  ~ p == 0 ->
  p < anchorPrice cl ->
  microTradeAmount cl <= cashBalance cl ->
  let st' := tickAt cl p st in
  tradeStatus st' = BUYING /\
  cashBalance st' == cashBalance st - microTradeAmount cl /\
  sharesHeld st' == sharesHeld st + microTradeAmount cl / p /\
  cashBalance st' + sharesHeld st' * p == cashBalance st + sharesHeld st * p.
Proof.
  intros Hp Hlt Hle. cbv zeta.
  destruct (tickAt_trade cl p st) as (-> & -> & ->).
  rewrite executeTrade_buy by assumption. simpl.
  repeat split; try reflexivity.
  field. exact Hp.
Qed.

Lemma buy_value_neutral_witness :
  let st' := tickAt initialRender 90 initialRender in
  tradeStatus st' = BUYING /\
  cashBalance st' == 1000 - 1 /\
  sharesHeld st' == 0 + 1 / 90 /\
  cashBalance st' + sharesHeld st' * 90 == 1000 + 0 * 90.
Proof.
  apply (buy_value_neutral initialRender 90 initialRender).
  - vm_compute. discriminate.
  - vm_compute. reflexivity.
  - vm_compute. discriminate.
Defined.

(** The same holds in the earlier revision. *)
Lemma linear_buy_value_neutral (cl : Render) (p : Q) (st : Render) :
  ~ p == 0 ->
  p < anchorPrice cl ->
  microTradeAmount cl <= cashBalance cl ->
  let st' := Linear.tickAt cl p st in
  cashBalance st' + sharesHeld st' * p == cashBalance st + sharesHeld st * p.
Proof.
  intros Hp Hlt Hle. cbv zeta. unfold Linear.tickAt.
  rewrite executeTrade_buy by assumption. simpl.
  field. exact Hp.
Qed.

(** ** Sign of the shares *)

Lemma quotient_nonneg (a p : Q) : 0 <= a -> 0 < p -> 0 <= a / p.
Proof.
  intros Ha Hp. apply Qle_shift_div_l; [exact Hp|].
  now rewrite Qmult_0_l.
Qed.

(** A tick at a positive price keeps the shares non-negative when the
    callback saw no shares (so that it never sells). *)
Lemma executeTrade_shares_nonneg (cl : Render) (p : Q) (st : Render) :
  sharesHeld cl <= 0 -> 0 <= microTradeAmount cl -> 0 < p ->
  0 <= sharesHeld st -> 0 <= sharesHeld (executeTrade cl p st).
Proof.
  intros Hcl Ha Hp Hst. unfold executeTrade.
  destruct (Qltb p (anchorPrice cl)).
  - destruct (Qle_bool (microTradeAmount cl) (cashBalance cl)); [|exact Hst].
    simpl. pose proof (quotient_nonneg _ _ Ha Hp). lra.
  - destruct (Qltb (anchorPrice cl) p); [|exact Hst].
    apply Qltb_ge in Hcl. now rewrite Hcl.
Qed.

Lemma tickAt_shares_nonneg (cl : Render) (p : Q) (st : Render) :
  sharesHeld cl <= 0 -> 0 <= microTradeAmount cl -> 0 < p ->
  0 <= sharesHeld st -> 0 <= sharesHeld (tickAt cl p st).
Proof.
  intros Hcl Ha Hp Hst.
  destruct (tickAt_trade cl p st) as (_ & _ & ->).
  apply executeTrade_shares_nonneg; [exact Hcl | exact Ha | exact Hp | exact Hst].
Qed.

Lemma fireAt_timerRef (c : Component) (p : Q) : timerRef (fireAt c p) = timerRef c.
Proof. unfold fireAt. destruct (timerRef c) eqn:E; simpl; congruence. Qed.

Lemma fireAll_shares_nonneg (cl : Render) (prices : list Q) :
  sharesHeld cl <= 0 -> 0 <= microTradeAmount cl ->
  Forall (fun p => 0 < p) prices ->
  forall c, timerRef c = Some cl -> 0 <= sharesHeld (hooks c) ->
  0 <= sharesHeld (hooks (fireAll prices c)).
Proof.
  intros Hcl Ha Hps. unfold fireAll.
  induction Hps as [|p ps Hp _ IH]; intros c Ht Hc; simpl.
  - exact Hc.
  - apply IH.
    + now rewrite fireAt_timerRef.
    + unfold fireAt. rewrite Ht. simpl. now apply tickAt_shares_nonneg.
Qed.

(** C2 (as amended).  Starting a run from a stopped component that holds no
    shares (the initial state in particular) with a non-negative trade
    amount, the shares stay non-negative after every tick of that run as
    long as the prices of the ticks are positive. *)
Theorem shares_nonneg_in_first_run (c : Component) (prices : list Q) :
  isRunning (hooks c) = false ->
  sharesHeld (hooks c) == 0 ->
  0 <= microTradeAmount (hooks c) ->
  Forall (fun p => 0 < p) prices ->
  0 <= sharesHeld (hooks (fireAll prices (startSimulation c))).
Proof.
  intros Hrun Hsh Ha Hps.
  apply fireAll_shares_nonneg with (cl := hooks c); try assumption.
  - rewrite Hsh. apply Qle_refl.
  - unfold startSimulation. now rewrite Hrun.
  - unfold startSimulation. rewrite Hrun. simpl. rewrite Hsh. apply Qle_refl.
Qed.

Lemma shares_nonneg_in_first_run_witness :
  0 <= sharesHeld (hooks (fireAll [90; 110; 95] (startSimulation initialComponent))).
Proof.
  apply (shares_nonneg_in_first_run initialComponent [90; 110; 95]).
  - reflexivity.
  - reflexivity.
  - vm_compute. discriminate.
  - repeat constructor.
Defined.

(** C2, as stated, fails for a negative price: with the anchor set to -40
    the first tick draws a price near -40.38, which is below the anchor, and
    the BUY adds a negative number of shares. *)
Lemma negative_price_makes_shares_negative :
  let c := run [ChangeAnchorPrice (-40); Start; Tick (3 # 4)] initialComponent in
  currentPrice (hooks c) < 0 /\
  tradeStatus (hooks c) = BUYING /\
  sharesHeld (hooks c) < 0.
Proof.
  vm_compute. repeat split.
Qed.

(** The generated price is positive when the anchor is. *)
Lemma generatePrice_positive (cl : Render) (random : Q) :
  0 < anchorPrice cl -> 0 <= random -> random <= 1 ->
  0 < generatePrice cl random.
Proof.
  intros Ha H0 H1. unfold generatePrice, Math_pow. cbv zeta.
  set (b := anchorPrice cl * (1 + growthRate) ^ Z.of_nat (List.length (priceData cl))).
  assert (Hb : 0 < b).
  { unfold b. apply Qmult_lt_0_compat; [exact Ha|].
    apply Qpower_0_lt. reflexivity. }
  assert (Hb' : 0 < b * (1 + (random - (1 # 2)) * 2 * (15 # 1000))).
  { apply Qmult_lt_0_compat; [exact Hb | lra]. }
  assert (E : b + (random - (1 # 2)) * 2 * (b * (15 # 1000))
              == b * (1 + (random - (1 # 2)) * 2 * (15 # 1000))) by ring.
  rewrite E. exact Hb'.
Qed.

(** What a tick does to a running component. *)
Lemma tickAt_settings (cl : Render) (p : Q) (st : Render) :
  anchorPrice (tickAt cl p st) = anchorPrice st /\
  isRunning (tickAt cl p st) = isRunning st /\
  currentPrice (tickAt cl p st) = p.
Proof.
  unfold tickAt, executeTrade. cbv zeta.
  repeat match goal with |- context [if ?b then _ else _] => destruct b end;
    repeat split.
Qed.

Lemma runEffects_same_deps (before after : Render) :
  anchorPrice after = anchorPrice before ->
  isRunning after = isRunning before ->
  runEffects before after = after.
Proof.
  intros Ha Hr. unfold runEffects. rewrite Ha, Hr.
  assert (E : Qeq_bool (anchorPrice before) (anchorPrice before) = true)
    by (apply Qeq_bool_iff; reflexivity).
  rewrite E, Bool.eqb_reflx. reflexivity.
Qed.

(** In the loop itself: with a positive anchor every draw of
    [Math.random()] gives a positive price, so the first run from a stopped
    component without shares never drives the shares below zero. *)
Lemma step_Start_stopped (c : Component) :
  isRunning (hooks c) = false -> step c Start = startSimulation c.
Proof.
  intros H. unfold step, runEffects, anchorEffect. cbv zeta.
  cbn [handle]. unfold startSimulation. rewrite H. simpl.
  destruct (_ || _); reflexivity.
Qed.

Lemma shares_nonneg_in_first_run_of_loop (c : Component) (randoms : list Q) :
  isRunning (hooks c) = false ->
  sharesHeld (hooks c) == 0 ->
  0 <= microTradeAmount (hooks c) ->
  0 < anchorPrice (hooks c) ->
  Forall (fun r => 0 <= r /\ r <= 1) randoms ->
  0 <= sharesHeld (hooks (run (Start :: map Tick randoms) c)).
Proof.
  intros Hrun Hsh Ha Hanchor Hrs.
  unfold run. cbn [fold_left]. rewrite (step_Start_stopped c Hrun).
  assert (Ht : timerRef (startSimulation c) = Some (hooks c))
    by (unfold startSimulation; now rewrite Hrun).
  assert (H0 : 0 <= sharesHeld (hooks (startSimulation c))).
  { unfold startSimulation. rewrite Hrun. simpl. rewrite Hsh. apply Qle_refl. }
  revert Ht H0. generalize (startSimulation c) as d.
  induction Hrs as [|r rs [Hr0 Hr1] _ IH]; intros d Ht H0; cbn [map fold_left].
  - exact H0.
  - apply IH.
    + unfold step. cbv zeta. cbn [handle]. rewrite Ht. reflexivity.
    + unfold step. cbv zeta. cbn [handle]. rewrite Ht. cbn [hooks].
      unfold intervalCallback.
      destruct (tickAt_settings (hooks c) (generatePrice (hooks c) r) (hooks d))
        as (E1 & E2 & _).
      rewrite runEffects_same_deps by assumption.
      apply tickAt_shares_nonneg; try assumption.
      * rewrite Hsh. apply Qle_refl.
      * now apply generatePrice_positive.
Qed.

(** After a pause and a restart the callback sells against the shares it
    captured at the restart, tick after tick: positive prices alone do not
    keep the shares non-negative in a later run. *)
Lemma restart_sells_more_than_held :
  let c := run [Start; Tick 0; Pause; Start; Tick 1; Tick 1] initialComponent in
  0 < currentPrice (hooks c) /\ sharesHeld (hooks c) < 0.
Proof. vm_compute. split; reflexivity. Qed.

(** ** The price series *)

Lemma keepLast_length {A : Type} (n : nat) (l : list A) :
  List.length (keepLast n l) = Nat.min n (List.length l).
Proof. unfold keepLast. rewrite length_skipn. lia. Qed.

(** Trimming early does not change what a later trim keeps. *)
Lemma keepLast_app {A : Type} (n : nat) (l m : list A) :
  keepLast n (keepLast n l ++ m) = keepLast n (l ++ m).
Proof.
  unfold keepLast.
  set (k := (List.length l - n)%nat).
  assert (Hk : (k - List.length l = 0)%nat) by (unfold k; lia).
  assert (E : skipn k l ++ m = skipn k (l ++ m)).
  { rewrite skipn_app, Hk. reflexivity. }
  rewrite E, skipn_skipn. f_equal.
  rewrite length_skipn, !length_app. unfold k. lia.
Qed.

Lemma appendPricePoint_keepLast (p : Q) (l : list PricePoint) :
  appendPricePoint p l =
    keepLast 50 (l ++ [ {| time := List.length l; price := p |} ]).
Proof.
  unfold appendPricePoint, keepLast, slice. cbv zeta.
  destruct (50 <? _)%nat eqn:E; [reflexivity|].
  apply Nat.ltb_ge in E.
  replace (_ - 50)%nat with 0%nat by lia. reflexivity.
Qed.

Lemma appendPricePoint_length (p : Q) (l : list PricePoint) :
  (List.length (appendPricePoint p l) <= 50)%nat.
Proof. rewrite appendPricePoint_keepLast, keepLast_length. lia. Qed.

Lemma tickAt_priceData (cl : Render) (p : Q) (st : Render) :
  priceData (tickAt cl p st) = appendPricePoint p (priceData st).
Proof.
  unfold tickAt, executeTrade. cbv zeta.
  repeat match goal with |- context [if ?b then _ else _] => destruct b end;
    reflexivity.
Qed.

Lemma tickAll_window (cl : Render) (prices : list Q) :
  forall (st : Render) (L : list PricePoint),
    priceData st = keepLast 50 L ->
    exists pts, map price pts = prices /\
                priceData (tickAll cl prices st) = keepLast 50 (L ++ pts).
Proof.
  unfold tickAll.
  induction prices as [|p ps IH]; intros st L HL; simpl.
  - exists []. now rewrite app_nil_r.
  - set (pt := {| time := List.length (priceData st); price := p |}).
    destruct (IH (tickAt cl p st) (L ++ [pt])) as (pts & Hm & Hw).
    + rewrite tickAt_priceData, appendPricePoint_keepLast. fold pt.
      rewrite HL. apply keepLast_app.
    + exists (pt :: pts). split; [simpl; now rewrite Hm|].
      rewrite Hw, <- app_assoc. reflexivity.
Qed.

(** The series of a stopped component is re-based by the effect; in every
    case a render holds at most as many points as the handler left. *)
Lemma runEffects_priceData (before after : Render) :
  priceData (runEffects before after) = priceData after \/
  priceData (runEffects before after) = [ {| time := 0; price := anchorPrice after |} ].
Proof.
  unfold runEffects, anchorEffect.
  destruct (_ || _); [destruct (negb _)|]; simpl; auto.
Qed.

Lemma handle_priceData_bound (e : Event) (c : Component) :
  (List.length (priceData (hooks c)) <= 50)%nat ->
  (List.length (priceData (hooks (handle e c))) <= 50)%nat.
Proof.
  intros H.
  destruct e; simpl;
    unfold startSimulation, pauseSimulation, resetSimulation, whenStopped;
    try (destruct (isRunning (hooks c)); simpl; (exact H || lia)).
  destruct (timerRef c); [|exact H].
  cbn [hooks]. unfold intervalCallback. rewrite tickAt_priceData.
  apply appendPricePoint_length.
Qed.

Lemma step_priceData_bound (c : Component) (e : Event) :
  (List.length (priceData (hooks c)) <= 50)%nat ->
  (List.length (priceData (hooks (step c e))) <= 50)%nat.
Proof.
  intros H. unfold step. cbv zeta. simpl.
  destruct (runEffects_priceData (hooks c) (hooks (handle e c))) as [-> | ->].
  - now apply handle_priceData_bound.
  - simpl. lia.
Qed.

Lemma run_priceData_bound (es : list Event) :
  forall c, (List.length (priceData (hooks c)) <= 50)%nat ->
            (List.length (priceData (hooks (run es c))) <= 50)%nat.
Proof.
  unfold run. induction es as [|e es IH]; intros c H; simpl.
  - exact H.
  - apply IH. now apply step_priceData_bound.
Qed.

(** C3.  The price series never holds more than 50 points, whatever the
    events since mounting; a tick appends one point and keeps the last 50 of
    the result, so after any non-empty sequence of ticks the series is the
    last 50 of: the old series followed by one point per tick, in order. *)
Theorem price_series_bounded_fifo :
  (forall es : list Event,
     (List.length (priceData (hooks (run es initialComponent))) <= 50)%nat) /\
  (forall (cl : Render) (p : Q) (st : Render),
     priceData (tickAt cl p st) =
       keepLast 50 (priceData st ++ [ {| time := List.length (priceData st); price := p |} ]) /\
     (List.length (priceData (tickAt cl p st)) <= 50)%nat) /\
  (forall (cl : Render) (p : Q) (prices : list Q) (st : Render),
     exists pts, map price pts = p :: prices /\
                 priceData (tickAll cl (p :: prices) st) =
                   keepLast 50 (priceData st ++ pts)).
Proof.
  split; [|split].
  - intros es. apply run_priceData_bound. simpl. lia.
  - intros cl p st. rewrite tickAt_priceData. split.
    + apply appendPricePoint_keepLast.
    + apply appendPricePoint_length.
  - intros cl p prices st.
    set (pt := {| time := List.length (priceData st); price := p |}).
    destruct (tickAll_window cl prices (tickAt cl p st) (priceData st ++ [pt]))
      as (pts & Hm & Hw).
    + rewrite tickAt_priceData. apply appendPricePoint_keepLast.
    + exists (pt :: pts). split; [simpl; now rewrite Hm|].
      change (tickAll cl (p :: prices) st) with (tickAll cl prices (tickAt cl p st)).
      rewrite Hw, <- app_assoc. reflexivity.
Qed.

(** The earlier revision keeps its series the same way. *)
Lemma linear_price_series_bounded (cl : Render) (p : Q) (st : Render) :
  priceData (Linear.tickAt cl p st) =
    keepLast 50 (priceData st ++ [ {| time := List.length (priceData st); price := p |} ]) /\
  (List.length (priceData (Linear.tickAt cl p st)) <= 50)%nat.
Proof.
  assert (E : priceData (Linear.tickAt cl p st) = appendPricePoint p (priceData st)).
  { unfold Linear.tickAt, executeTrade. cbv zeta.
    repeat match goal with |- context [if ?b then _ else _] => destruct b end;
      reflexivity. }
  rewrite E. split.
  - apply appendPricePoint_keepLast.
  - apply appendPricePoint_length.
Qed.

(** On a full series the append drops the oldest point and stamps the new
    one with 50. *)
Lemma appendPricePoint_saturated (p : Q) (l : list PricePoint) :
  List.length l = 50%nat ->
  appendPricePoint p l = skipn 1 l ++ [ {| time := 50; price := p |} ].
Proof.
  intros H. unfold appendPricePoint, slice. cbv zeta.
  rewrite length_app, H. simpl List.length.
  change (50 <? 50 + 1)%nat with true. cbv iota.
  change (50 + 1 - 50)%nat with 1%nat.
  rewrite skipn_app, H. reflexivity.
Qed.

Lemma appendPricePoint_saturated_length (p : Q) (l : list PricePoint) :
  List.length l = 50%nat -> List.length (appendPricePoint p l) = 50%nat.
Proof.
  intros H. rewrite appendPricePoint_keepLast, keepLast_length, length_app, H.
  reflexivity.
Qed.

Lemma tickAll_saturated (cl : Render) (prices : list Q) :
  forall st, List.length (priceData st) = 50%nat ->
             List.length (priceData (tickAll cl prices st)) = 50%nat.
Proof.
  unfold tickAll. induction prices as [|p ps IH]; intros st H; cbn [fold_left].
  - exact H.
  - apply IH. rewrite tickAt_priceData. now apply appendPricePoint_saturated_length.
Qed.

(** C10.  Once the series holds 50 points it stays at 50 points, and the
    point appended by any later tick has time 50, the length of the series
    before the append; in particular two successive ticks leave two last
    points that both have time 50, so the times of the appended points no
    longer increase. *)
Theorem saturated_points_have_time_50 (cl : Render) (st : Render) :
  List.length (priceData st) = 50%nat ->
  (forall (prices : list Q) (p : Q),
     let st1 := tickAt cl p (tickAll cl prices st) in
     exists rest,
       priceData st1 = rest ++ [ {| time := 50; price := p |} ] /\
       List.length rest = 49%nat) /\
  (forall p q : Q,
     let st2 := tickAt cl q (tickAt cl p st) in
     exists rest,
       priceData st2 =
         rest ++ [ {| time := 50; price := p |}; {| time := 50; price := q |} ] /\
       List.length rest = 48%nat).
Proof.
  intros H. split.
  - intros prices p. cbv zeta.
    pose proof (tickAll_saturated cl prices st H) as Hn.
    exists (skipn 1 (priceData (tickAll cl prices st))). split.
    + rewrite tickAt_priceData. now apply appendPricePoint_saturated.
    + rewrite length_skipn. lia.
  - intros p q. cbv zeta.
    assert (H1 : priceData (tickAt cl p st) =
                 skipn 1 (priceData st) ++ [ {| time := 50; price := p |} ]).
    { rewrite tickAt_priceData. now apply appendPricePoint_saturated. }
    assert (L1 : List.length (skipn 1 (priceData st)) = 49%nat)
      by (rewrite length_skipn; lia).
    exists (skipn 2 (priceData st)). split.
    + rewrite tickAt_priceData, appendPricePoint_saturated
        by (rewrite H1, length_app, L1; reflexivity).
      rewrite H1, skipn_app, L1, skipn_skipn, <- app_assoc. reflexivity.
    + rewrite length_skipn. lia.
Qed.

(** The series is full after the 49th tick of a run. *)
Lemma saturated_points_have_time_50_witness :
  let st := hooks (run (Start :: repeat (Tick (1 # 2)) 49) initialComponent) in
  (forall (prices : list Q) (p : Q),
     let st1 := tickAt initialRender p (tickAll initialRender prices st) in
     exists rest,
       priceData st1 = rest ++ [ {| time := 50; price := p |} ] /\
       List.length rest = 49%nat) /\
  (forall p q : Q,
     let st2 := tickAt initialRender q (tickAt initialRender p st) in
     exists rest,
       priceData st2 =
         rest ++ [ {| time := 50; price := p |}; {| time := 50; price := q |} ] /\
       List.length rest = 48%nat).
Proof.
  apply (saturated_points_have_time_50 initialRender
           (hooks (run (Start :: repeat (Tick (1 # 2)) 49) initialComponent))).
  vm_compute. reflexivity.
Defined.

(** The earlier revision stamps the points of a full series the same way. *)
Lemma linear_saturated_point_time (cl : Render) (p : Q) (st : Render) :
  List.length (priceData st) = 50%nat ->
  priceData (Linear.tickAt cl p st) =
    skipn 1 (priceData st) ++ [ {| time := 50; price := p |} ].
Proof.
  intros H.
  rewrite (proj1 (linear_price_series_bounded cl p st)), <- appendPricePoint_keepLast.
  now apply appendPricePoint_saturated.
Qed.

(** ** Reset *)

(** The handler alone. *)
Lemma resetSimulation_fields (c : Component) :
  hooks (resetSimulation c) =
    {| assetName := assetName (hooks c);
       anchorPrice := anchorPrice (hooks c);
       microTradeAmount := microTradeAmount (hooks c);
       tradeInterval := tradeInterval (hooks c);
       isRunning := false;
       currentPrice := anchorPrice (hooks c);
       cashBalance := 1000;
       sharesHeld := 0;
       tradeStatus := IDLE;
       priceData := [ {| time := 0; price := anchorPrice (hooks c) |} ];
       cashBalanceHistory :=
         [ {| etime := 0; balance := 1000; change := 0; action := "INITIAL";
              eprice := None |} ] |} /\
  timerRef (resetSimulation c) = None.
Proof. split; reflexivity. Qed.

(** The effect that may follow a reset rewrites the price and the series
    with the values the handler has just set. *)
Lemma runEffects_after_reset (before : Render) (c : Component) :
  runEffects before (hooks (resetSimulation c)) = hooks (resetSimulation c).
Proof.
  unfold runEffects, anchorEffect.
  destruct (_ || _); reflexivity.
Qed.

(** C6.  From any state of the component, reachable or not, running or
    stopped, a reset gives the initial state for the current anchor: cash
    1000, no shares, the price at the anchor, status IDLE, the one-point
    price series, the one-entry balance history, and no scheduled timer; the
    settings are kept. *)
Theorem reset_restores_initial_state (c : Component) :
  let c' := step c Reset in
  cashBalance (hooks c') = 1000 /\
  sharesHeld (hooks c') = 0 /\
  currentPrice (hooks c') = anchorPrice (hooks c) /\
  tradeStatus (hooks c') = IDLE /\
  priceData (hooks c') = [ {| time := 0; price := anchorPrice (hooks c) |} ] /\
  cashBalanceHistory (hooks c') =
    [ {| etime := 0; balance := 1000; change := 0; action := "INITIAL";
         eprice := None |} ] /\
  isRunning (hooks c') = false /\
  timerRef c' = None /\
  anchorPrice (hooks c') = anchorPrice (hooks c) /\
  microTradeAmount (hooks c') = microTradeAmount (hooks c).
Proof.
  cbv zeta. unfold step. cbv zeta. cbn [handle hooks timerRef].
  rewrite runEffects_after_reset.
  destruct (resetSimulation_fields c) as [-> ->].
  repeat split.
Qed.

(** The earlier revision resets the hooks it has. *)
Lemma linear_reset_restores_initial_state (c : Component) :
  let c' := Linear.step c Reset in
  cashBalance (hooks c') = 1000 /\
  sharesHeld (hooks c') = 0 /\
  currentPrice (hooks c') = anchorPrice (hooks c) /\
  tradeStatus (hooks c') = IDLE /\
  priceData (hooks c') = [ {| time := 0; price := anchorPrice (hooks c) |} ] /\
  isRunning (hooks c') = false /\
  timerRef c' = None.
Proof.
  cbv zeta.
  unfold Linear.step, runEffects, anchorEffect, Linear.handle, Linear.resetSimulation.
  cbv zeta. simpl.
  destruct (_ || _); simpl; repeat split.
Qed.

(** ** The generated price *)

Lemma step_Tick (c : Component) (cl : Render) (random : Q) :
  timerRef c = Some cl ->
  step c (Tick random) =
    {| hooks := intervalCallback cl random (hooks c); timerRef := Some cl |}.
Proof.
  intros Ht. unfold step. cbv zeta. simpl. rewrite Ht. cbn [hooks timerRef].
  unfold intervalCallback.
  destruct (tickAt_settings cl (generatePrice cl random) (hooks c)) as (Ha & Hr & _).
  now rewrite runEffects_same_deps.
Qed.

(** Throughout a run every tick draws its price from the trend of the same
    exponent, the length of the series captured at the start. *)
Lemma run_ticks_price (randoms : list Q) :
  forall (c : Component) (cl : Render) (random : Q),
    timerRef c = Some cl ->
    currentPrice (hooks (run (map Tick randoms ++ [Tick random]) c)) =
      generatePrice cl random.
Proof.
  unfold run.
  induction randoms as [|r rs IH]; intros c cl random Ht;
    cbn [map app fold_left].
  - rewrite (step_Tick c cl random Ht). cbn [hooks]. unfold intervalCallback.
    apply tickAt_settings.
  - apply IH. rewrite (step_Tick c cl r Ht). reflexivity.
Qed.

Lemma generatePrice_trend (cl : Render) (random : Q) :
  let trend := anchorPrice cl * Math_pow (1 + growthRate) (List.length (priceData cl)) in
  let u := (random - (1 # 2)) * 2 in
  generatePrice cl random == trend + u * (trend * (15 # 1000)).
Proof. cbv zeta. unfold generatePrice. cbv zeta. reflexivity. Qed.

(** C8 on the code.  With the default settings and the draw 1/2 (no noise)
    the first tick is priced at 100 * 1.002, and so is the second: the trend
    of the second tick is not 100 * 1.002^2. *)
Lemma trend_does_not_grow_between_ticks :
  let c1 := run [Start; Tick (1 # 2)] initialComponent in
  let c2 := step c1 (Tick (1 # 2)) in
  currentPrice (hooks c1) == 100 * Math_pow (1 + growthRate) 1 /\
  currentPrice (hooks c2) == 100 * Math_pow (1 + growthRate) 1 /\
  ~ currentPrice (hooks c2) == 100 * Math_pow (1 + growthRate) 2.
Proof.
  vm_compute. repeat split. discriminate.
Qed.

(** ** The balance history *)

Lemma lastBalanceOf_snoc (prev : list BalanceEvent) (e : BalanceEvent) :
  lastBalanceOf (prev ++ [e]) = if Qeq_bool (balance e) 0 then 1000 else balance e.
Proof.
  unfold lastBalanceOf.
  destruct (prev ++ [e]) eqn:E; [now destruct prev|].
  rewrite <- E, length_app. simpl List.length.
  replace (List.length prev + 1 - 1)%nat with (List.length prev) by lia.
  rewrite nth_error_app2 by lia. rewrite Nat.sub_diag. reflexivity.
Qed.

(** The updater appends exactly when the projected balance differs from
    [lastBalanceOf], and the entry it appends is stamped with the length of
    the history. *)
Lemma recordBalance_cases (cl : Render) (p : Q) (prev : list BalanceEvent) :
  (projectedBalance cl p == lastBalanceOf prev /\ recordBalance cl p prev = prev) \/
  (~ projectedBalance cl p == lastBalanceOf prev /\
   recordBalance cl p prev =
     prev ++ [ {| etime := List.length prev;
                  balance := projectedBalance cl p;
                  change := projectedBalance cl p - lastBalanceOf prev;
                  action := statusName (tradeStatus cl);
                  eprice := Some p |} ]).
Proof.
  unfold recordBalance. cbv zeta.
  destruct (Qeq_bool (projectedBalance cl p) (lastBalanceOf prev)) eqn:E.
  - left. split; [now apply Qeq_bool_iff | reflexivity].
  - right. split; [|reflexivity].
    intro H. apply Qeq_bool_iff in H. congruence.
Qed.

(** When the last logged balance is not zero the updater does what C4
    says. *)
Lemma recordBalance_after_nonzero (cl : Render) (p : Q)
      (prev : list BalanceEvent) (e : BalanceEvent) :
  ~ balance e == 0 ->
  (projectedBalance cl p == balance e <-> recordBalance cl p (prev ++ [e]) = prev ++ [e]).
Proof.
  intros Hnz.
  assert (HL : lastBalanceOf (prev ++ [e]) = balance e).
  { rewrite lastBalanceOf_snoc. destruct (Qeq_bool (balance e) 0) eqn:E; [|reflexivity].
    apply Qeq_bool_iff in E. contradiction. }
  destruct (recordBalance_cases cl p (prev ++ [e])) as [[H1 H2] | [H1 H2]];
    rewrite HL in *.
  - tauto.
  - split; [intro; contradiction|].
    rewrite H2. intro Habs.
    apply (f_equal (@List.length _)) in Habs.
    rewrite !length_app in Habs. simpl in Habs. lia.
Qed.

(** C4 on the code.  With a trade amount of 1000 the first BUY logs a
    balance of 0.  After a pause and a restart the next buy-zone tick cannot
    trade; the projected balance is 0, equal to the balance of the last
    logged entry, and yet an entry is appended (with a change of -1000):
    the zero is taken for a missing value and replaced by 1000. *)
Lemma zero_balance_is_logged_again :
  let c := run [ChangeMicroTradeAmount 1000; Start; Tick 0; Pause; Start] initialComponent in
  let c' := step c (Tick 0) in
  exists cl first last e,
    timerRef c = Some cl /\
    cashBalanceHistory (hooks c) = [first; last] /\
    projectedBalance cl (generatePrice cl 0) == balance last /\
    cashBalance (hooks c') == cashBalance (hooks c) /\
    cashBalanceHistory (hooks c') = [first; last; e] /\
    balance e == balance last /\
    change e == - (1000).
Proof.
  cbv zeta.
  set (c := run [ChangeMicroTradeAmount 1000; Start; Tick 0; Pause; Start] initialComponent).
  vm_compute in c. subst c.
  eexists _, _, _, _.
  split; [reflexivity|].
  split; [reflexivity|].
  vm_compute. repeat split.
Qed.

Lemma runEffects_history (before after : Render) :
  cashBalanceHistory (runEffects before after) = cashBalanceHistory after.
Proof.
  unfold runEffects, anchorEffect.
  destruct (_ || _); [destruct (negb _)|]; reflexivity.
Qed.

Lemma tickAt_history (cl : Render) (p : Q) (st : Render) :
  cashBalanceHistory (tickAt cl p st) = recordBalance cl p (cashBalanceHistory st).
Proof.
  unfold tickAt, executeTrade. cbv zeta.
  repeat match goal with |- context [if ?b then _ else _] => destruct b end;
    reflexivity.
Qed.

(** What an event can do to the history: nothing, the reset, or one run of
    the updater. *)
Lemma step_history (c : Component) (e : Event) :
  cashBalanceHistory (hooks (step c e)) = cashBalanceHistory (hooks c) \/
  cashBalanceHistory (hooks (step c e)) =
    [ {| etime := 0; balance := 1000; change := 0; action := "INITIAL";
         eprice := None |} ] \/
  exists cl p,
    cashBalanceHistory (hooks (step c e)) = recordBalance cl p (cashBalanceHistory (hooks c)).
Proof.
  unfold step. cbv zeta. cbn [hooks]. rewrite runEffects_history.
  destruct e; cbn [handle];
    unfold startSimulation, pauseSimulation, resetSimulation, whenStopped;
    try (destruct (isRunning (hooks c)); simpl; auto; fail).
  destruct (timerRef c) as [cl|]; [|auto].
  right. right. exists cl, (generatePrice cl random).
  cbn [hooks]. unfold intervalCallback. apply tickAt_history.
Qed.

Lemma recordBalance_times (cl : Render) (p : Q) (prev : list BalanceEvent) :
  map etime prev = seq 0 (List.length prev) ->
  map etime (recordBalance cl p prev) = seq 0 (List.length (recordBalance cl p prev)).
Proof.
  intros H.
  destruct (recordBalance_cases cl p prev) as [[_ ->] | [_ ->]]; [exact H|].
  rewrite map_app, length_app, H. simpl.
  rewrite Nat.add_1_r, seq_S. reflexivity.
Qed.

Lemma run_history_times (es : list Event) :
  forall c,
    map etime (cashBalanceHistory (hooks c)) =
      seq 0 (List.length (cashBalanceHistory (hooks c))) ->
    map etime (cashBalanceHistory (hooks (run es c))) =
      seq 0 (List.length (cashBalanceHistory (hooks (run es c)))).
Proof.
  unfold run. induction es as [|e es IH]; intros c H; cbn [fold_left].
  - exact H.
  - apply IH.
    destruct (step_history c e) as [-> | [-> | (cl & p & ->)]].
    + exact H.
    + reflexivity.
    + now apply recordBalance_times.
Qed.

(** C5 (as amended).  The time of an appended balance entry is the length of
    the history before the append, that is, the position of the entry in the
    history; so the times logged since mounting are always 0, 1, 2, ...
    without gaps, however many ticks passed without an entry. *)
Theorem balance_event_time_is_log_index :
  (forall (cl : Render) (p : Q) (prev : list BalanceEvent),
     recordBalance cl p prev = prev \/
     exists e, recordBalance cl p prev = prev ++ [e] /\ etime e = List.length prev) /\
  (forall es : list Event,
     let history := cashBalanceHistory (hooks (run es initialComponent)) in
     map etime history = seq 0 (List.length history)).
Proof.
  split.
  - intros cl p prev.
    destruct (recordBalance_cases cl p prev) as [[_ H] | [_ H]]; [now left|].
    right. eexists. split; [exact H | reflexivity].
  - intros es. cbv zeta. apply run_history_times. reflexivity.
Qed.

(** C5, as stated, fails: the first tick of this run logs nothing, and the
    entry logged by the second tick has time 1, not the tick index 2. *)
Lemma logged_time_is_not_the_tick_index :
  let c1 := run [Start; Tick (1 # 2)] initialComponent in
  let c2 := step c1 (Tick 0) in
  cashBalanceHistory (hooks c1) = cashBalanceHistory initialRender /\
  exists e,
    cashBalanceHistory (hooks c2) = cashBalanceHistory (hooks c1) ++ [e] /\
    etime e = 1%nat /\ etime e <> 2%nat.
Proof.
  cbv zeta. split.
  - vm_compute. reflexivity.
  - eexists. split; [vm_compute; reflexivity|].
    split; [reflexivity | discriminate].
Qed.

(** ** The CSV export *)

Lemma digitChar_isDigit (d : Z) : (0 <= d < 10)%Z -> isDigit (digitChar d).
Proof.
  intros H. unfold isDigit, digitChar.
  rewrite nat_ascii_embedding by lia. lia.
Qed.

Lemma lowDigits_two (m : Z) :
  lowDigits 2 m =
    String (digitChar ((m / 10) mod 10)) (String (digitChar (m mod 10)) EmptyString).
Proof. reflexivity. Qed.

Lemma string_app_assoc (s t u : string) : ((s ++ t) ++ u)%string = (s ++ t ++ u)%string.
Proof.
  induction s as [|a s IH]; cbn [append]; [reflexivity | now rewrite IH].
Qed.

Lemma join_snoc (sep x : string) (xs : list string) (y : string) :
  join sep ((x :: xs) ++ [y]) = (join sep (x :: xs) ++ sep ++ y)%string.
Proof.
  unfold join. revert x.
  induction xs as [|z zs IH]; intros x.
  - reflexivity.
  - change (concat sep ((x :: z :: zs) ++ [y]))
      with (x ++ sep ++ concat sep ((z :: zs) ++ [y]))%string.
    change (concat sep (x :: z :: zs)) with (x ++ sep ++ concat sep (z :: zs))%string.
    rewrite IH, !string_app_assoc. reflexivity.
Qed.

(** Exporting one more entry adds one line. *)
Lemma csvContent_snoc (history : list BalanceEvent) (e : BalanceEvent) :
  csvContent (history ++ [e]) = (csvContent history ++ newline ++ csvRow e)%string.
Proof.
  unfold csvContent. rewrite map_app. cbn [map].
  exact (join_snoc newline csvHeader (map csvRow history) (csvRow e)).
Qed.

(** The numeral printed for a non-negative integer reads back as it. *)
Lemma decimalOfZ_value (q : Z) :
  (0 <= q)%Z -> numeralValue (decimalOfZ q) = Some (Z.to_N q).
Proof.
  intros _. unfold numeralValue, decimalOfZ.
  rewrite NilZero.usu.
  - cbn [option_map]. now rewrite DecimalN.Unsigned.of_to.
  - destruct (Z.to_N q); [discriminate | apply DecimalPos.Unsigned.to_uint_nonnil].
Qed.

(** Below 10^21 [toFixed(2)] prints the hundredths nearest to the value. *)
Lemma toFixed_two_below (x : Q) :
  0 <= x -> x < inject_Z (10 ^ 21) ->
  exists n : Z,
    inject_Z n - (1 # 2) <= x * 100 /\ x * 100 < inject_Z n + (1 # 2) /\
    toFixed x 2 =
      (decimalOfZ (n / 100) ++ "." ++
       String (digitChar ((n / 10) mod 10)) (String (digitChar (n mod 10)) EmptyString))%string.
Proof.
  intros H0 H1. exists (Qfloor (x * 100 + (1 # 2))).
  pose proof (Qfloor_le (x * 100 + (1 # 2))) as F1.
  pose proof (Qlt_floor (x * 100 + (1 # 2))) as F2.
  rewrite inject_Z_plus in F2. change (inject_Z 1) with 1 in F2.
  split; [lra|]. split; [lra|].
  unfold toFixed. cbv zeta.
  apply Qltb_ge in H0. apply Qle_bool_gt in H1. rewrite H0, H1.
  rewrite lowDigits_two. reflexivity.
Qed.

Lemma toFixed_negative (x : Q) (fractionDigits : nat) :
  x < 0 -> toFixed x fractionDigits = ("-" ++ toFixed (- x) fractionDigits)%string.
Proof.
  intros H. unfold toFixed. cbv zeta.
  assert (H1 : Qltb x 0 = true) by now apply Qltb_lt.
  assert (H2 : Qltb (- x) 0 = false) by (apply Qltb_ge; lra).
  now rewrite H1, H2.
Qed.

(** C9 (as amended).  The exported text is the header line, and each
    balance entry adds one line feed and one row: the time, the balance and
    the change printed by [toFixed(2)], the action, and the price printed by
    [toFixed(2)] or N/A when the entry has none, separated by commas.  For a
    value below 10^21 in magnitude [toFixed(2)] prints the sign, the numeral
    of the integer part and, after a point, exactly two digits: the digits
    of the integer of hundredths nearest to the magnitude, the larger one on
    a tie.  The two-entry history of the example exports as the three lines
    of the example. *)
Theorem csv_export_format :
  (csvContent [] = "Time,Cash Balance,Change,Action,Asset Price"%string) /\
  (forall (history : list BalanceEvent) (e : BalanceEvent),
     csvContent (history ++ [e]) =
       (csvContent history ++ newline ++
        decimalOfNat (etime e) ++ "," ++ toFixed (balance e) 2 ++ "," ++
        toFixed (change e) 2 ++ "," ++ action e ++ "," ++
        match eprice e with Some p => toFixed p 2 | None => "N/A" end)%string) /\
  (forall x : Q,
     0 <= x -> x < inject_Z (10 ^ 21) ->
     exists n : Z,
       inject_Z n - (1 # 2) <= x * 100 /\ x * 100 < inject_Z n + (1 # 2) /\
       toFixed x 2 =
         (decimalOfZ (n / 100) ++ "." ++
          String (digitChar ((n / 10) mod 10))
            (String (digitChar (n mod 10)) EmptyString))%string /\
       numeralValue (decimalOfZ (n / 100)) = Some (Z.to_N (n / 100)) /\
       isDigit (digitChar ((n / 10) mod 10)) /\ isDigit (digitChar (n mod 10))) /\
  (forall x : Q, x < 0 -> toFixed x 2 = ("-" ++ toFixed (- x) 2)%string) /\
  exportCashBalanceData
    (setCashBalanceHistory
       (fun _ =>
          [ {| etime := 0; balance := 1000; change := 0; action := "INITIAL";
               eprice := None |};
            {| etime := 1; balance := 999; change := - (1); action := "BUYING";
               eprice := Some 90 |} ])
       initialRender) =
    ("Time,Cash Balance,Change,Action,Asset Price" ++ newline ++
     "0,1000.00,0.00,INITIAL,N/A" ++ newline ++
     "1,999.00,-1.00,BUYING,90.00")%string.
Proof.
  split; [reflexivity|].
  split; [intros history e; rewrite csvContent_snoc; reflexivity|].
  split.
  { intros x H0 H1.
    destruct (toFixed_two_below x H0 H1) as (n & Hlo & Hhi & Hs).
    exists n. split; [exact Hlo|]. split; [exact Hhi|]. split; [exact Hs|].
    assert (Hn : (0 <= n)%Z).
    { destruct (Z_lt_le_dec n 0) as [Hneg|]; [|assumption].
      assert (inject_Z n <= - (1)).
      { change (- (1)) with (inject_Z (-1)). rewrite <- Zle_Qle. lia. }
      lra. }
    split; [apply decimalOfZ_value; now apply Z.div_pos|].
    split; apply digitChar_isDigit; apply Z.mod_pos_bound; lia. }
  split; [intros x Hx; now apply toFixed_negative|].
  vm_compute. reflexivity.
Qed.

(** The digits of 98.697, of one eighth (a tie) and of -0.005. *)
Lemma csv_export_format_witness :
  (exists n : Z,
     inject_Z n - (1 # 2) <= (98697 # 1000) * 100 /\
     (98697 # 1000) * 100 < inject_Z n + (1 # 2) /\
     toFixed (98697 # 1000) 2 =
       (decimalOfZ (n / 100) ++ "." ++
        String (digitChar ((n / 10) mod 10))
          (String (digitChar (n mod 10)) EmptyString))%string /\
     numeralValue (decimalOfZ (n / 100)) = Some (Z.to_N (n / 100)) /\
     isDigit (digitChar ((n / 10) mod 10)) /\ isDigit (digitChar (n mod 10))) /\
  toFixed (98697 # 1000) 2 = "98.70"%string /\
  toFixed (1 # 8) 2 = "0.13"%string /\
  toFixed (- (5 # 1000)) 2 = ("-" ++ toFixed (- - (5 # 1000)) 2)%string /\
  toFixed (- (5 # 1000)) 2 = "-0.01"%string.
Proof.
  destruct csv_export_format as (_ & _ & Hpos & Hneg & _).
  split; [apply (Hpos (98697 # 1000)); vm_compute; [discriminate | reflexivity]|].
  split; [vm_compute; reflexivity|].
  split; [vm_compute; reflexivity|].
  split; [apply (Hneg (- (5 # 1000))); vm_compute; reflexivity|].
  vm_compute. reflexivity.
Defined.

(** C9, as stated, fails for a value of 10^21 or more: a balance of 10^22
    is exported as 1e+22, which does not end in a point and two digits. *)
Lemma large_balance_is_exported_in_exponent_notation :
  csvContent
    [ {| etime := 0; balance := inject_Z (10 ^ 22); change := 0;
         action := "INITIAL"; eprice := None |} ] =
    ("Time,Cash Balance,Change,Action,Asset Price" ++ newline ++
     "0,1e+22,0.00,INITIAL,N/A")%string /\
  toFixed (inject_Z (10 ^ 22)) 2 = "1e+22"%string /\
  ~ (exists whole d1 d2,
       toFixed (inject_Z (10 ^ 22)) 2 =
         (whole ++ "." ++ String d1 (String d2 EmptyString))%string).
Proof.
  split; [vm_compute; reflexivity|].
  split; [vm_compute; reflexivity|].
  intros (whole & d1 & d2 & H).
  assert (E : toFixed (inject_Z (10 ^ 22)) 2 = "1e+22"%string) by (vm_compute; reflexivity).
  rewrite E in H.
  destruct whole as [|a [|b [|c w]]]; cbn [append] in H; try discriminate H.
  injection H as _ _ _ H.
  destruct w as [|x [|y [|z w]]]; cbn [append] in H; discriminate H.
Qed.

(** * Further properties of the component *)

(** ** One event at a time *)

Lemma runEffects_refl (h : Render) : runEffects h h = h.
Proof. now apply runEffects_same_deps. Qed.

Lemma component_eta (c : Component) :
  {| hooks := hooks c; timerRef := timerRef c |} = c.
Proof. now destruct c. Qed.

Lemma step_Start_running (c : Component) :
  isRunning (hooks c) = true -> step c Start = c.
Proof.
  intros H. unfold step. cbv zeta. cbn [handle]. unfold startSimulation.
  rewrite H, runEffects_refl. apply component_eta.
Qed.

Lemma step_Pause_stopped (c : Component) :
  isRunning (hooks c) = false -> step c Pause = c.
Proof.
  intros H. unfold step. cbv zeta. cbn [handle]. unfold pauseSimulation.
  rewrite H. cbn [negb]. rewrite runEffects_refl. apply component_eta.
Qed.

Lemma step_Pause_running (c : Component) :
  isRunning (hooks c) = true ->
  step c Pause =
    {| hooks :=
         setPriceData (fun _ => [ {| time := 0; price := anchorPrice (hooks c) |} ])
           (setCurrentPrice (anchorPrice (hooks c))
              (setTradeStatus PAUSED (setIsRunning false (hooks c))));
       timerRef := None |}.
Proof.
  intros H. unfold step. cbv zeta. cbn [handle]. unfold pauseSimulation.
  rewrite H. cbn [negb hooks timerRef]. unfold runEffects.
  rewrite H. cbn [isRunning setTradeStatus setIsRunning Bool.eqb negb].
  rewrite orb_true_r. reflexivity.
Qed.

Lemma step_Reset (c : Component) : step c Reset = resetSimulation c.
Proof.
  unfold step. cbv zeta. cbn [handle]. now rewrite runEffects_after_reset.
Qed.

Lemma step_Tick_unscheduled (c : Component) (random : Q) :
  timerRef c = None -> step c (Tick random) = c.
Proof.
  intros H. destruct c as [h t]. cbn [timerRef] in H. subst t.
  unfold step. cbv zeta. cbn [handle timerRef hooks].
  now rewrite runEffects_refl.
Qed.

Lemma step_whenStopped_running (f : Render -> Render) (c : Component) :
  isRunning (hooks c) = true ->
  {| hooks := runEffects (hooks c) (hooks (whenStopped f c));
     timerRef := timerRef (whenStopped f c) |} = c.
Proof.
  intros H. unfold whenStopped. rewrite H, runEffects_refl. apply component_eta.
Qed.

Lemma tickAt_keeps_settings (cl : Render) (p : Q) (st : Render) :
  settings (tickAt cl p st) = settings st.
Proof.
  unfold tickAt, executeTrade, settings. cbv zeta.
  repeat match goal with |- context [if ?b then _ else _] => destruct b end;
    reflexivity.
Qed.

(** X1.  The four settings cannot change while the simulation runs: the inputs
    are disabled, and no command and no tick writes them. *)
Theorem settings_fixed_while_running (c : Component) (e : Event) :
  isRunning (hooks c) = true ->
  settings (hooks (step c e)) = settings (hooks c).
Proof.
  intros H. destruct e.
  - now rewrite step_Start_running.
  - now rewrite step_Pause_running.
  - now rewrite step_Reset.
  - destruct (timerRef c) as [cl|] eqn:Ht.
    + rewrite (step_Tick c cl random Ht). cbn [hooks]. apply tickAt_keeps_settings.
    + now rewrite step_Tick_unscheduled.
  - unfold step. cbv zeta. cbn [handle]. now rewrite step_whenStopped_running.
  - unfold step. cbv zeta. cbn [handle]. now rewrite step_whenStopped_running.
  - unfold step. cbv zeta. cbn [handle]. now rewrite step_whenStopped_running.
  - unfold step. cbv zeta. cbn [handle]. now rewrite step_whenStopped_running.
Qed.

Lemma settings_fixed_while_running_witness :
  settings (hooks (step (step initialComponent Start) (ChangeAnchorPrice 250))) =
  settings (hooks (step initialComponent Start)).
Proof.
  apply (settings_fixed_while_running (step initialComponent Start) (ChangeAnchorPrice 250)).
  reflexivity.
Defined.

(** X2.  Each of the three commands, given twice in a row, does what it does
    given once. *)
Theorem commands_idempotent (c : Component) :
  step (step c Start) Start = step c Start /\
  step (step c Pause) Pause = step c Pause /\
  step (step c Reset) Reset = step c Reset.
Proof.
  split; [|split].
  - destruct (isRunning (hooks c)) eqn:H.
    + rewrite (step_Start_running c H). exact (step_Start_running c H).
    + rewrite (step_Start_stopped c H). apply step_Start_running.
      unfold startSimulation. now rewrite H.
  - destruct (isRunning (hooks c)) eqn:H.
    + rewrite (step_Pause_running c H). now apply step_Pause_stopped.
    + rewrite (step_Pause_stopped c H). exact (step_Pause_stopped c H).
  - rewrite !step_Reset. reflexivity.
Qed.

(** X3.  A pause of a running simulation cancels the timer and keeps the cash,
    the shares, the history and the settings, but it does not freeze the
    chart: the effect on [isRunning] puts the price and the series back on
    the anchor. *)
Theorem pause_keeps_balances_and_rebases (c : Component) :
  isRunning (hooks c) = true ->
  let c' := step c Pause in
  timerRef c' = None /\
  isRunning (hooks c') = false /\
  tradeStatus (hooks c') = PAUSED /\
  cashBalance (hooks c') = cashBalance (hooks c) /\
  sharesHeld (hooks c') = sharesHeld (hooks c) /\
  cashBalanceHistory (hooks c') = cashBalanceHistory (hooks c) /\
  currentPrice (hooks c') = anchorPrice (hooks c) /\
  priceData (hooks c') = [ {| time := 0; price := anchorPrice (hooks c) |} ].
Proof.
  intros H. cbv zeta. rewrite (step_Pause_running c H). repeat split.
Qed.

Lemma pause_keeps_balances_and_rebases_witness :
  let c := run [Start; Tick 0; Tick 1] initialComponent in
  let c' := step c Pause in
  timerRef c' = None /\
  isRunning (hooks c') = false /\
  tradeStatus (hooks c') = PAUSED /\
  cashBalance (hooks c') = cashBalance (hooks c) /\
  sharesHeld (hooks c') = sharesHeld (hooks c) /\
  cashBalanceHistory (hooks c') = cashBalanceHistory (hooks c) /\
  currentPrice (hooks c') = anchorPrice (hooks c) /\
  priceData (hooks c') = [ {| time := 0; price := anchorPrice (hooks c) |} ].
Proof.
  apply (pause_keeps_balances_and_rebases
           (run [Start; Tick 0; Tick 1] initialComponent)).
  reflexivity.
Defined.

(** ** States reachable from the mounted component *)

Lemma rebased_fields (r r' : Render) :
  currentPrice r' = currentPrice r -> anchorPrice r' = anchorPrice r ->
  priceData r' = priceData r -> rebased r -> rebased r'.
Proof. unfold rebased. intros -> -> ->. tauto. Qed.

Lemma step_change_stopped (f : Render -> Render) (h : Render) :
  isRunning h = false ->
  anchorPrice (f h) = anchorPrice h -> isRunning (f h) = isRunning h ->
  {| hooks := runEffects h (hooks (whenStopped f {| hooks := h; timerRef := None |}));
     timerRef := timerRef (whenStopped f {| hooks := h; timerRef := None |}) |} =
  {| hooks := f h; timerRef := None |}.
Proof.
  intros H Ha Hr. unfold whenStopped. cbn [hooks timerRef]. rewrite H.
  cbn [hooks timerRef]. now rewrite runEffects_same_deps.
Qed.

Lemma step_coherent (c : Component) (e : Event) :
  coherent c -> coherent (step c e).
Proof.
  destruct c as [h [cl|]]; unfold coherent; cbn [timerRef hooks].
  - (* running *)
    intros (Hrun & Hreb & Hst & Hset). destruct e.
    + rewrite step_Start_running by exact Hrun. cbn. auto.
    + rewrite step_Pause_running by exact Hrun. cbn.
      repeat split; try reflexivity.
      * eexists. split; reflexivity.
      * now right.
    + rewrite step_Reset. cbn. repeat split; try reflexivity.
      * eexists. split; reflexivity.
      * now left.
    + rewrite (step_Tick {| hooks := h; timerRef := Some cl |} cl random eq_refl).
      cbn [timerRef hooks]. unfold intervalCallback.
      destruct (tickAt_settings cl (generatePrice cl random) h) as (_ & -> & _).
      rewrite tickAt_keeps_settings. auto.
    + unfold step. cbv zeta. cbn [handle].
      rewrite step_whenStopped_running by exact Hrun. cbn. auto.
    + unfold step. cbv zeta. cbn [handle].
      rewrite step_whenStopped_running by exact Hrun. cbn. auto.
    + unfold step. cbv zeta. cbn [handle].
      rewrite step_whenStopped_running by exact Hrun. cbn. auto.
    + unfold step. cbv zeta. cbn [handle].
      rewrite step_whenStopped_running by exact Hrun. cbn. auto.
  - (* stopped *)
    intros (Hrun & Hreb & Hst). destruct e.
    + rewrite step_Start_stopped by exact Hrun. unfold startSimulation.
      cbn [hooks]. rewrite Hrun. cbn. auto.
    + rewrite step_Pause_stopped by exact Hrun. cbn. auto.
    + rewrite step_Reset. cbn. repeat split; try reflexivity.
      * eexists. split; reflexivity.
      * now left.
    + rewrite step_Tick_unscheduled by reflexivity. cbn. auto.
    + unfold step. cbv zeta. cbn [handle].
      rewrite step_change_stopped by (exact Hrun || reflexivity).
      cbn [timerRef hooks].
      split; [exact Hrun|]. split; [now apply (rebased_fields h) | exact Hst].
    + (* the anchor changes: the effect may run *)
      unfold step. cbv zeta. cbn [handle]. unfold whenStopped.
      cbn [hooks timerRef]. rewrite Hrun. cbn [hooks timerRef].
      unfold runEffects. cbn [isRunning anchorPrice setAnchorPrice].
      rewrite Bool.eqb_reflx. cbn [negb]. rewrite orb_false_r.
      destruct (Qeq_bool (anchorPrice h) v) eqn:E; cbn [negb].
      * apply Qeq_bool_iff in E.
        destruct Hreb as (Hc & p & Hp & Hpa).
        split; [exact Hrun|]. split; [|exact Hst].
        split; [cbn; now rewrite Hc|].
        exists p. split; [exact Hp|]. cbn. now rewrite Hpa.
      * unfold anchorEffect. cbn [isRunning setAnchorPrice]. rewrite Hrun.
        cbn. repeat split; try assumption; try reflexivity.
        eexists. split; reflexivity.
    + unfold step. cbv zeta. cbn [handle].
      rewrite step_change_stopped by (exact Hrun || reflexivity).
      cbn [timerRef hooks].
      split; [exact Hrun|]. split; [now apply (rebased_fields h) | exact Hst].
    + unfold step. cbv zeta. cbn [handle].
      rewrite step_change_stopped by (exact Hrun || reflexivity).
      cbn [timerRef hooks].
      split; [exact Hrun|]. split; [now apply (rebased_fields h) | exact Hst].
Qed.

Lemma initial_coherent : coherent initialComponent.
Proof.
  unfold coherent. cbn. repeat split; try reflexivity.
  - eexists. split; reflexivity.
  - now left.
Qed.

Lemma run_coherent (es : list Event) :
  forall c, coherent c -> coherent (run es c).
Proof.
  unfold run. induction es as [|e es IH]; intros c H; cbn [fold_left].
  - exact H.
  - apply IH. now apply step_coherent.
Qed.

Lemma step_history_cases (c : Component) (e : Event) :
  cashBalanceHistory (hooks (step c e)) = cashBalanceHistory (hooks c) \/
  cashBalanceHistory (hooks (step c e)) = [initialEntry] \/
  exists cl random,
    e = Tick random /\ timerRef c = Some cl /\
    cashBalanceHistory (hooks (step c e)) =
      recordBalance cl (generatePrice cl random) (cashBalanceHistory (hooks c)).
Proof.
  unfold step. cbv zeta. cbn [hooks]. rewrite runEffects_history.
  destruct e; cbn [handle];
    unfold startSimulation, pauseSimulation, resetSimulation, whenStopped;
    try (destruct (isRunning (hooks c)); simpl; auto; fail).
  destruct (timerRef c) as [cl|] eqn:Ht; [|auto].
  right. right. exists cl, random.
  split; [reflexivity|]. split; [reflexivity|].
  cbn [hooks]. unfold intervalCallback. apply tickAt_history.
Qed.

Lemma recordBalance_shape (cl : Render) (p : Q) (prev : list BalanceEvent) :
  idleOrPaused (tradeStatus cl) -> historyShape prev ->
  historyShape (recordBalance cl p prev).
Proof.
  intros Hst (rest & -> & Hrest).
  destruct (recordBalance_cases cl p (initialEntry :: rest)) as [[_ ->] | [Hne ->]].
  - now exists rest.
  - eexists. split; [rewrite <- app_comm_cons; reflexivity|].
    apply Forall_app. split; [exact Hrest|].
    constructor; [|constructor].
    unfold loggedByTick. cbn [action eprice change]. split; [|split].
    + destruct Hst as [-> | ->]; [now left | now right].
    + now exists p.
    + intro H. apply Hne. lra.
Qed.

Lemma run_reachable (es : list Event) :
  forall c,
    coherent c -> historyShape (cashBalanceHistory (hooks c)) ->
    coherent (run es c) /\ historyShape (cashBalanceHistory (hooks (run es c))).
Proof.
  unfold run. induction es as [|e es IH]; intros c Hc Hh; cbn [fold_left].
  - now split.
  - apply IH; [now apply step_coherent|].
    destruct (step_history_cases c e) as [-> | [-> | (cl & r & _ & Ht & ->)]].
    + exact Hh.
    + exists []. split; [reflexivity | constructor].
    + apply recordBalance_shape; [|exact Hh].
      unfold coherent in Hc. rewrite Ht in Hc. tauto.
Qed.

Lemma reachable (es : list Event) :
  coherent (run es initialComponent) /\
  historyShape (cashBalanceHistory (hooks (run es initialComponent))).
Proof.
  apply run_reachable; [exact initial_coherent|].
  exists []. split; [reflexivity | constructor].
Qed.

(** X4.  Whatever the events since mounting, a timer is scheduled exactly when
    [isRunning] is set; while the component is stopped no callback is
    scheduled, so a tick finds nothing to run. *)
Theorem timer_scheduled_iff_running (es : list Event) :
  let c := run es initialComponent in
  (isRunning (hooks c) = true /\ exists cl, timerRef c = Some cl) \/
  (isRunning (hooks c) = false /\ timerRef c = None /\
   forall random, step c (Tick random) = c).
Proof.
  cbv zeta. destruct (reachable es) as [Hc _].
  unfold coherent in Hc.
  destruct (timerRef (run es initialComponent)) as [cl|] eqn:Ht.
  - left. split; [tauto | now exists cl].
  - right. split; [tauto|]. split; [reflexivity|].
    intros random. now apply step_Tick_unscheduled.
Qed.

(** X5.  Whenever the component is stopped, its price equals the anchor, its
    series is the single point at the anchor, and its status is IDLE or
    PAUSED: nothing of a past run is left on the chart. *)
Theorem stopped_component_sits_on_anchor (es : list Event) :
  let c := run es initialComponent in
  isRunning (hooks c) = false ->
  currentPrice (hooks c) == anchorPrice (hooks c) /\
  (exists p, priceData (hooks c) = [ {| time := 0; price := p |} ] /\
             p == anchorPrice (hooks c)) /\
  (tradeStatus (hooks c) = IDLE \/ tradeStatus (hooks c) = PAUSED).
Proof.
  cbv zeta. intros Hrun. destruct (reachable es) as [Hc _].
  unfold coherent in Hc.
  destruct (timerRef (run es initialComponent)) as [cl|].
  - destruct Hc as [Hc _]. congruence.
  - destruct Hc as (_ & (H1 & H2) & H3). auto.
Qed.

Lemma stopped_component_sits_on_anchor_witness :
  let c := run [ChangeAnchorPrice 250; Start; Tick 0; Tick 1; Pause] initialComponent in
  currentPrice (hooks c) == anchorPrice (hooks c) /\
  (exists p, priceData (hooks c) = [ {| time := 0; price := p |} ] /\
             p == anchorPrice (hooks c)) /\
  (tradeStatus (hooks c) = IDLE \/ tradeStatus (hooks c) = PAUSED).
Proof.
  apply (stopped_component_sits_on_anchor
           [ChangeAnchorPrice 250; Start; Tick 0; Tick 1; Pause]).
  vm_compute. reflexivity.
Defined.

Lemma scheduled_price (c : Component) (cl : Render) (random : Q) :
  timerRef c = Some cl -> rebased cl -> settings cl = settings (hooks c) ->
  currentPrice (hooks (step c (Tick random))) ==
    anchorPrice (hooks c) * (1 + growthRate) *
      (1 + (random - (1 # 2)) * 2 * (15 # 1000)).
Proof.
  intros Ht (_ & p & Hp & _) Hset.
  rewrite (step_Tick c cl random Ht). cbn [hooks]. unfold intervalCallback.
  destruct (tickAt_settings cl (generatePrice cl random) (hooks c)) as (_ & _ & ->).
  unfold generatePrice. cbv zeta. rewrite Hp.
  assert (Ha : anchorPrice cl = anchorPrice (hooks c))
    by (unfold settings in Hset; congruence).
  rewrite Ha. cbn [List.length]. unfold Math_pow.
  change (Z.of_nat 1) with 1%Z.
  change ((1 + growthRate) ^ 1) with (1 + growthRate).
  ring.
Qed.

(** X6.  In every run the trend is the anchor times 1.002 to the power one: the
    series captured at the start always has one point.  Every tick of every
    run draws its price as [anchor * 1.002 * (1 + u * 0.015)] with [u] the
    draw mapped to [-1, 1]. *)
Theorem tick_price_in_every_run (es : list Event) (random : Q) :
  let c := run es initialComponent in
  isRunning (hooks c) = true ->
  currentPrice (hooks (step c (Tick random))) ==
    anchorPrice (hooks c) * (1 + growthRate) *
      (1 + (random - (1 # 2)) * 2 * (15 # 1000)).
Proof.
  cbv zeta. intros Hrun. destruct (reachable es) as [Hc _].
  unfold coherent in Hc.
  destruct (timerRef (run es initialComponent)) as [cl|] eqn:Ht.
  - apply (scheduled_price _ cl); tauto.
  - destruct Hc as [Hc _]. congruence.
Qed.

Lemma tick_price_in_every_run_witness :
  let c := run [Start; Tick 0; Tick 1; Pause; Start; Tick 0; Tick (1 # 3)] initialComponent in
  currentPrice (hooks (step c (Tick (3 # 4)))) ==
    anchorPrice (hooks c) * (1 + growthRate) *
      (1 + ((3 # 4) - (1 # 2)) * 2 * (15 # 1000)).
Proof.
  apply (tick_price_in_every_run
           [Start; Tick 0; Tick 1; Pause; Start; Tick 0; Tick (1 # 3)] (3 # 4)).
  vm_compute. reflexivity.
Defined.

(** X7.  With a positive anchor the price of every tick of every run lies
    between 98.697% and 101.703% of the anchor: the simulated price does
    not drift away from it. *)
Theorem tick_price_band (es : list Event) (random : Q) :
  let c := run es initialComponent in
  isRunning (hooks c) = true ->
  0 < anchorPrice (hooks c) ->
  0 <= random -> random <= 1 ->
  anchorPrice (hooks c) * (98697 # 100000) <= currentPrice (hooks (step c (Tick random))) /\
  currentPrice (hooks (step c (Tick random))) <= anchorPrice (hooks c) * (101703 # 100000).
Proof.
  cbv zeta. intros Hrun Ha H0 H1. destruct (reachable es) as [Hc _].
  unfold coherent in Hc.
  destruct (timerRef (run es initialComponent)) as [cl|] eqn:Ht;
    [|destruct Hc as [Hc _]; congruence].
  rewrite (scheduled_price _ cl random Ht) by tauto.
  set (a := anchorPrice (hooks (run es initialComponent))) in *.
  unfold growthRate.
  split; nra.
Qed.

Lemma tick_price_band_witness :
  let c := run [Start; Tick 0] initialComponent in
  anchorPrice (hooks c) * (98697 # 100000) <= currentPrice (hooks (step c (Tick 1))) /\
  currentPrice (hooks (step c (Tick 1))) <= anchorPrice (hooks c) * (101703 # 100000).
Proof.
  apply (tick_price_band [Start; Tick 0] 1).
  - vm_compute. reflexivity.
  - vm_compute. reflexivity.
  - vm_compute. discriminate.
  - vm_compute. discriminate.
Defined.

(** X8.  The history always starts with the INITIAL entry, and every later
    entry has a price, a change that is not zero, and as action the status
    captured when its run was started, IDLE or PAUSED: no entry is ever
    labelled BUYING or SELLING. *)
Theorem history_entries_shape (es : list Event) :
  exists rest,
    cashBalanceHistory (hooks (run es initialComponent)) = initialEntry :: rest /\
    Forall loggedByTick rest.
Proof.
  destruct (reachable es) as [_ (rest & Hhead & Hrest)].
  exists rest. split; [exact Hhead | exact Hrest].
Qed.

(** ** More on the trade rule *)

Lemma Math_min_le_l (x y : Q) : Math_min x y <= x.
Proof.
  unfold Math_min. destruct (Qle_bool x y) eqn:E.
  - apply Qle_refl.
  - apply Qle_bool_gt in E. now apply Qlt_le_weak.
Qed.

Lemma Math_min_le_r (x y : Q) : Math_min x y <= y.
Proof.
  unfold Math_min. destruct (Qle_bool x y) eqn:E.
  - now apply Qle_bool_iff.
  - apply Qle_refl.
Qed.

Lemma Math_min_pos (x y : Q) : 0 < x -> 0 < y -> 0 < Math_min x y.
Proof. unfold Math_min. now destruct (Qle_bool x y). Qed.

Lemma quotient_times (a p : Q) : ~ p == 0 -> a / p * p == a.
Proof. intros H. field. exact H. Qed.

(** X9.  A SELL at a positive price: the proceeds are the shares sold times the
    price, so the value of the holdings at that price is unchanged; it sells
    at most the shares the callback saw and credits at most the trade
    amount; and with a positive trade amount it does sell something. *)
Theorem sell_is_bounded_and_value_neutral (cl : Render) (p : Q) (st : Render) :
  anchorPrice cl < p -> 0 < sharesHeld cl -> 0 < p ->
  let st' := tickAt cl p st in
  let sold := sharesHeld st - sharesHeld st' in
  tradeStatus st' = SELLING /\
  cashBalance st' - cashBalance st == sold * p /\
  cashBalance st' + sharesHeld st' * p == cashBalance st + sharesHeld st * p /\
  sold <= sharesHeld cl /\
  cashBalance st' - cashBalance st <= microTradeAmount cl /\
  (0 < microTradeAmount cl -> 0 < sold).
Proof.
  intros Hgt Hsh Hp. cbv zeta.
  destruct (tickAt_trade cl p st) as (-> & -> & ->).
  rewrite executeTrade_sell by assumption. cbv zeta.
  cbn [tradeStatus cashBalance sharesHeld setTradeStatus setSharesHeld
       setCashBalance setPriceData setCurrentPrice].
  set (s := Math_min (sharesHeld cl) (microTradeAmount cl / p)).
  assert (Hs1 : s <= sharesHeld cl) by apply Math_min_le_l.
  assert (Hs2 : s <= microTradeAmount cl / p) by apply Math_min_le_r.
  assert (Hp0 : ~ p == 0) by (intro E; rewrite E in Hp; discriminate).
  assert (Hs3 : s * p <= microTradeAmount cl).
  { rewrite <- (quotient_times (microTradeAmount cl) p Hp0).
    apply Qmult_le_compat_r; [exact Hs2 | now apply Qlt_le_weak]. }
  repeat split.
  - ring.
  - ring.
  - lra.
  - lra.
  - intros Ha.
    assert (0 < s).
    { apply Math_min_pos; [exact Hsh|].
      apply Qlt_shift_div_l; [exact Hp | now rewrite Qmult_0_l]. }
    lra.
Qed.

Lemma sell_is_bounded_and_value_neutral_witness :
  let cl := setSharesHeld (fun _ => 5) initialRender in
  let st' := tickAt cl 110 cl in
  let sold := sharesHeld cl - sharesHeld st' in
  tradeStatus st' = SELLING /\
  cashBalance st' - cashBalance cl == sold * 110 /\
  cashBalance st' + sharesHeld st' * 110 == cashBalance cl + sharesHeld cl * 110 /\
  sold <= sharesHeld cl /\
  cashBalance st' - cashBalance cl <= microTradeAmount cl /\
  (0 < microTradeAmount cl -> 0 < sold).
Proof.
  apply (sell_is_bounded_and_value_neutral
           (setSharesHeld (fun _ => 5) initialRender) 110
           (setSharesHeld (fun _ => 5) initialRender));
    vm_compute; reflexivity.
Defined.

(** X10.  After any tick at a price that is not zero, the total value shown is
    the cash and the shares held before the tick, valued at the new price:
    a trade moves value between cash and shares and never creates or
    destroys any. *)
Theorem total_value_after_tick (cl : Render) (p : Q) (st : Render) :
  ~ p == 0 ->
  totalValue (tickAt cl p st) == cashBalance st + sharesHeld st * p.
Proof.
  intros Hp. unfold totalValue.
  destruct (tickAt_settings cl p st) as (_ & _ & ->).
  destruct (tickAt_trade cl p st) as (_ & -> & ->).
  unfold executeTrade. cbv zeta.
  repeat match goal with |- context [if ?b then _ else _] => destruct b end;
    cbn [cashBalance sharesHeld setTradeStatus setSharesHeld setCashBalance
         setPriceData setCurrentPrice];
    try reflexivity; try ring.
  field. exact Hp.
Qed.

Lemma total_value_after_tick_witness :
  totalValue (tickAt initialRender 90 initialRender) ==
    cashBalance initialRender + sharesHeld initialRender * 90.
Proof.
  apply (total_value_after_tick initialRender 90 initialRender).
  vm_compute. discriminate.
Defined.

Lemma Qltb_asym (x y : Q) : Qltb x y = true -> Qltb y x = false.
Proof.
  intros H. apply Qltb_lt in H. apply Qltb_ge. now apply Qlt_le_weak.
Qed.

(** X11.  The balance projected for the history moves from the cash the callback
    captured by exactly what the trade branch adds to the live cash; so on a
    tick whose callback sees the current cash, the projected balance is the
    cash after the tick. *)
Theorem projected_change_is_executed_change (cl : Render) (p : Q) (st : Render) :
  projectedBalance cl p - cashBalance cl ==
    cashBalance (tickAt cl p st) - cashBalance st /\
  (cashBalance cl == cashBalance st ->
   projectedBalance cl p == cashBalance (tickAt cl p st)).
Proof.
  assert (H : projectedBalance cl p - cashBalance cl ==
              cashBalance (tickAt cl p st) - cashBalance st).
  { destruct (tickAt_trade cl p st) as (_ & -> & _).
    unfold projectedBalance, executeTrade. cbv zeta.
    destruct (Qltb p (anchorPrice cl)) eqn:E1.
    - rewrite (Qltb_asym _ _ E1). cbn [andb].
      destruct (Qle_bool (microTradeAmount cl) (cashBalance cl));
        cbn [cashBalance sharesHeld setTradeStatus setSharesHeld setCashBalance
             setPriceData setCurrentPrice]; ring.
    - cbn [andb].
      destruct (Qltb (anchorPrice cl) p); cbn [andb];
        [destruct (Qltb 0 (sharesHeld cl))|];
        cbn [cashBalance sharesHeld setTradeStatus setSharesHeld setCashBalance
             setPriceData setCurrentPrice]; ring. }
  split; [exact H|]. intros E. lra.
Qed.

(** X12.  Within a run the buy check reads the cash captured at the start: when
    that covers the trade amount, every buy-zone tick takes the amount from
    the live cash, however little is left.  After [n] such ticks the cash is
    down by [n] times the amount, and nothing stops it at zero. *)
Theorem buy_ticks_ignore_live_cash (cl : Render) (prices : list Q) (st : Render) :
  microTradeAmount cl <= cashBalance cl ->
  Forall (fun p => p < anchorPrice cl) prices ->
  cashBalance (tickAll cl prices st) ==
    cashBalance st - inject_Z (Z.of_nat (List.length prices)) * microTradeAmount cl.
Proof.
  intros Hle Hps. revert st. unfold tickAll.
  induction Hps as [|p ps Hp _ IH]; intros st.
  - cbn [fold_left List.length]. change (inject_Z (Z.of_nat 0)) with 0. ring.
  - cbn [fold_left]. rewrite IH.
    destruct (tickAt_trade cl p st) as (_ & -> & _).
    rewrite executeTrade_buy by assumption.
    cbn [cashBalance setTradeStatus setSharesHeld setCashBalance
         setPriceData setCurrentPrice].
    change (List.length (p :: ps)) with (S (List.length ps)).
    rewrite Nat2Z.inj_succ. unfold Z.succ. rewrite inject_Z_plus.
    change (inject_Z 1) with 1. ring.
Qed.

(** Three buy-zone ticks of a run started with a cash of 2 and a trade
    amount of 1 leave a cash of -1. *)
Lemma buy_ticks_ignore_live_cash_witness :
  let cl := setCashBalance (fun _ => 2) initialRender in
  cashBalance (tickAll cl [90; 95; 99] cl) ==
    cashBalance cl - inject_Z (Z.of_nat (List.length [90; 95; 99])) * microTradeAmount cl.
Proof.
  apply (buy_ticks_ignore_live_cash (setCashBalance (fun _ => 2) initialRender)
           [90; 95; 99] (setCashBalance (fun _ => 2) initialRender)).
  - vm_compute. discriminate.
  - repeat constructor.
Defined.

(** ** The history is only appended to *)

(** X13.  No event but a reset removes or rewrites an entry of the history: an
    event leaves it as it is or adds one entry at its end. *)
Theorem history_is_append_only (c : Component) (e : Event) :
  e <> Reset ->
  exists suffix,
    cashBalanceHistory (hooks (step c e)) = cashBalanceHistory (hooks c) ++ suffix /\
    (List.length suffix <= 1)%nat.
Proof.
  intros Hne.
  assert (H : cashBalanceHistory (hooks (step c e)) = cashBalanceHistory (hooks c) \/
              exists cl p, cashBalanceHistory (hooks (step c e)) =
                             recordBalance cl p (cashBalanceHistory (hooks c))).
  { unfold step. cbv zeta. cbn [hooks]. rewrite runEffects_history.
    destruct e; try congruence; cbn [handle];
      unfold startSimulation, pauseSimulation, whenStopped;
      try (destruct (isRunning (hooks c)); simpl; auto; fail).
    destruct (timerRef c) as [cl|]; [|auto].
    right. exists cl, (generatePrice cl random).
    cbn [hooks]. unfold intervalCallback. apply tickAt_history. }
  destruct H as [-> | (cl & p & ->)].
  - exists []. rewrite app_nil_r. split; [reflexivity | simpl; lia].
  - destruct (recordBalance_cases cl p (cashBalanceHistory (hooks c)))
      as [[_ ->] | [_ ->]].
    + exists []. rewrite app_nil_r. split; [reflexivity | simpl; lia].
    + eexists. split; [reflexivity | simpl; lia].
Qed.

Lemma history_is_append_only_witness :
  exists suffix,
    cashBalanceHistory (hooks (step (step initialComponent Start) (Tick 0))) =
      cashBalanceHistory (hooks (step initialComponent Start)) ++ suffix /\
    (List.length suffix <= 1)%nat.
Proof.
  apply (history_is_append_only (step initialComponent Start) (Tick 0)).
  discriminate.
Defined.

(** ** The linear revision does not walk *)

Lemma linear_tickAt_settings (cl : Render) (p : Q) (st : Render) :
  anchorPrice (Linear.tickAt cl p st) = anchorPrice st /\
  isRunning (Linear.tickAt cl p st) = isRunning st /\
  currentPrice (Linear.tickAt cl p st) = p.
Proof.
  unfold Linear.tickAt, executeTrade. cbv zeta.
  repeat match goal with |- context [if ?b then _ else _] => destruct b end;
    repeat split.
Qed.

Lemma linear_step_Tick (c : Component) (cl : Render) (random : Q) :
  timerRef c = Some cl ->
  Linear.step c (Tick random) =
    {| hooks := Linear.intervalCallback cl random (hooks c); timerRef := Some cl |}.
Proof.
  intros Ht. unfold Linear.step. cbv zeta. cbn [Linear.handle]. rewrite Ht.
  cbn [hooks timerRef]. unfold Linear.intervalCallback.
  destruct (linear_tickAt_settings cl (Linear.generatePrice cl random) (hooks c))
    as (Ha & Hr & _).
  now rewrite runEffects_same_deps.
Qed.

Lemma linear_run_ticks_price (randoms : list Q) :
  forall (c : Component) (cl : Render) (random : Q),
    timerRef c = Some cl ->
    currentPrice (hooks (Linear.run (map Tick randoms ++ [Tick random]) c)) =
      Linear.generatePrice cl random.
Proof.
  unfold Linear.run.
  induction randoms as [|r rs IH]; intros c cl random Ht;
    cbn [map app fold_left].
  - rewrite (linear_step_Tick c cl random Ht). cbn [hooks].
    unfold Linear.intervalCallback. apply linear_tickAt_settings.
  - apply IH. rewrite (linear_step_Tick c cl r Ht). reflexivity.
Qed.

(** X14.  In the earlier revision each tick steps from the price captured when
    the run was started, not from the price of the previous tick: after any
    number of ticks the price is within 1% of the anchor from that captured
    price, so the price does not perform a random walk. *)
Theorem linear_price_stays_near_start
        (c : Component) (cl : Render) (randoms : list Q) (random : Q) :
  timerRef c = Some cl ->
  0 <= anchorPrice cl ->
  0 <= random -> random <= 1 ->
  let price := currentPrice (hooks (Linear.run (map Tick randoms ++ [Tick random]) c)) in
  currentPrice cl - anchorPrice cl * (1 # 100) <= price /\
  price <= currentPrice cl + anchorPrice cl * (1 # 100).
Proof.
  intros Ht Ha H0 H1. cbv zeta.
  rewrite (linear_run_ticks_price randoms c cl random Ht).
  unfold Linear.generatePrice. cbv zeta.
  set (a := anchorPrice cl) in *. set (q := currentPrice cl).
  split; nra.
Qed.

Lemma linear_price_stays_near_start_witness :
  let c := startSimulation initialComponent in
  let price := currentPrice (hooks (Linear.run (map Tick [0; 1; 0; 1] ++ [Tick 1]) c)) in
  currentPrice initialRender - anchorPrice initialRender * (1 # 100) <= price /\
  price <= currentPrice initialRender + anchorPrice initialRender * (1 # 100).
Proof.
  apply (linear_price_stays_near_start (startSimulation initialComponent)
           initialRender [0; 1; 0; 1] 1).
  - reflexivity.
  - vm_compute. discriminate.
  - vm_compute. discriminate.
  - vm_compute. discriminate.
Defined.

(** ** The view *)

Lemma tie_shows_sell_zone (r : Render) :
  currentPrice r == anchorPrice r ->
  zoneLabel r = "SELL ZONE"%string /\
  buyAreaDisplayed r = false /\ sellAreaDisplayed r = false.
Proof.
  intros E. unfold zoneLabel, buyAreaDisplayed, sellAreaDisplayed.
  assert (H1 : Qltb (currentPrice r) (anchorPrice r) = false)
    by (apply Qltb_ge; rewrite E; apply Qle_refl).
  assert (H2 : Qltb (anchorPrice r) (currentPrice r) = false)
    by (apply Qltb_ge; rewrite E; apply Qle_refl).
  now rewrite H1, H2.
Qed.

(** X15.  The panel names the zone of the area the chart displays, and the two
    areas are never displayed together; at a price equal to the anchor the
    panel says SELL ZONE while no area is displayed, which is what every
    stopped component shows. *)
Theorem zone_label_and_areas :
  (forall r : Render,
     (buyAreaDisplayed r = true ->
        zoneLabel r = "BUY ZONE"%string /\ sellAreaDisplayed r = false) /\
     (sellAreaDisplayed r = true ->
        zoneLabel r = "SELL ZONE"%string /\ buyAreaDisplayed r = false)) /\
  (forall es : list Event,
     let r := hooks (run es initialComponent) in
     isRunning r = false ->
     zoneLabel r = "SELL ZONE"%string /\
     buyAreaDisplayed r = false /\ sellAreaDisplayed r = false).
Proof.
  split.
  - intros r. unfold zoneLabel, buyAreaDisplayed, sellAreaDisplayed. split; intros H.
    + rewrite H. split; [reflexivity | now apply Qltb_asym].
    + rewrite (Qltb_asym _ _ H). split; reflexivity.
  - intros es. cbv zeta. intros Hrun. apply tie_shows_sell_zone.
    destruct (reachable es) as [Hc _]. unfold coherent in Hc.
    destruct (timerRef (run es initialComponent)).
    + destruct Hc as [Hc _]. congruence.
    + destruct Hc as (_ & (H & _) & _). exact H.
Qed.

(** X16.  The Y axis of the chart covers the data as long as the prices are not
    negative; for prices of -20 and below both bounds fall on the wrong side
    and the axis misses the data. *)
Theorem y_axis_covers_nonnegative_data (dataMin dataMax : Q) :
  (0 <= dataMin -> inject_Z (yAxisMin dataMin) <= dataMin) /\
  (0 <= dataMax -> dataMax <= inject_Z (yAxisMax dataMax)) /\
  (dataMin <= - (20) -> dataMin < inject_Z (yAxisMin dataMin)) /\
  (dataMax <= - (20) -> inject_Z (yAxisMax dataMax) < dataMax).
Proof.
  unfold yAxisMin, yAxisMax.
  pose proof (Qfloor_le (dataMin * (95 # 100))) as F1.
  pose proof (Qlt_floor (dataMin * (95 # 100))) as F2.
  pose proof (Qle_ceiling (dataMax * (105 # 100))) as C1.
  pose proof (Qceiling_lt (dataMax * (105 # 100))) as C2.
  rewrite inject_Z_plus in F2. change (inject_Z 1) with 1 in F2.
  unfold Z.sub in C2. rewrite inject_Z_plus in C2.
  set (lo := inject_Z (Qfloor (dataMin * (95 # 100)))) in *.
  set (hi := inject_Z (Qceiling (dataMax * (105 # 100)))) in *.
  assert (C3 : hi - 1 < dataMax * (105 # 100)) by exact C2.
  repeat split; intros H; lra.
Qed.

(** ** Shape of the exported text *)

Lemma countChar_app (c : ascii) (s t : string) :
  countChar c (s ++ t) = (countChar c s + countChar c t)%nat.
Proof.
  induction s as [|a s IH]; cbn [append countChar]; [reflexivity|].
  rewrite IH. lia.
Qed.

Lemma countChar_join (c : ascii) (sep x : string) (xs : list string) :
  countChar c (join sep (x :: xs)) =
    (countChar c x +
     list_sum (map (fun y => countChar c sep + countChar c y) xs))%nat.
Proof.
  unfold join. revert x.
  induction xs as [|y ys IH]; intros x.
  - cbn [concat map]. unfold list_sum. cbn [fold_right]. lia.
  - change (concat sep (x :: y :: ys)) with (x ++ sep ++ concat sep (y :: ys))%string.
    rewrite !countChar_app, IH. cbn [map]. unfold list_sum. cbn [fold_right]. lia.
Qed.

(** A character below ['-'] in the ASCII table: the comma and the line
    feed are such characters, and no digit, sign, point or letter is. *)
Lemma not_a_separator (a c : ascii) :
  (nat_of_ascii c < 45)%nat -> (45 <= nat_of_ascii a)%nat -> Ascii.eqb a c = false.
Proof.
  intros Hc Ha. destruct (Ascii.eqb_spec a c) as [->|]; [lia | reflexivity].
Qed.

Lemma countChar_uint (c : ascii) (d : Decimal.uint) :
  (nat_of_ascii c < 45)%nat -> countChar c (NilEmpty.string_of_uint d) = 0%nat.
Proof.
  intros Hc.
  induction d; cbn [NilEmpty.string_of_uint countChar]; [reflexivity|..];
    rewrite not_a_separator by (exact Hc || (vm_compute; lia)); exact IHd.
Qed.

Lemma countChar_NilZero (c : ascii) (d : Decimal.uint) :
  (nat_of_ascii c < 45)%nat -> countChar c (NilZero.string_of_uint d) = 0%nat.
Proof.
  intros Hc. unfold NilZero.string_of_uint.
  destruct d; try (now apply countChar_uint).
  cbn [countChar]. now rewrite not_a_separator by (exact Hc || (vm_compute; lia)).
Qed.

Lemma countChar_lowDigits (c : ascii) (k : nat) :
  (nat_of_ascii c < 45)%nat -> forall m, countChar c (lowDigits k m) = 0%nat.
Proof.
  intros Hc. induction k as [|k IH]; intros m; cbn [lowDigits]; [reflexivity|].
  rewrite countChar_app, IH. cbn [countChar].
  rewrite not_a_separator; [reflexivity | exact Hc |].
  pose proof (digitChar_isDigit (m mod 10) (Z.mod_pos_bound m 10 eq_refl)) as H.
  unfold isDigit in H. lia.
Qed.

Lemma plus_is_not (c : ascii) :
  (nat_of_ascii c <> 43)%nat -> Ascii.eqb "+" c = false.
Proof.
  intros Hc. destruct (Ascii.eqb_spec "+"%char c) as [<-|]; [|reflexivity].
  exfalso. apply Hc. reflexivity.
Qed.

Lemma countChar_strip (c : ascii) (s : string) :
  countChar c s = 0%nat -> countChar c (stripTrailingZeros s) = 0%nat.
Proof.
  induction s as [|a s IH]; intros H; cbn [stripTrailingZeros]; [reflexivity|].
  cbn [countChar] in H.
  assert (Ha : (if Ascii.eqb a c then 1 else 0)%nat = 0%nat) by lia.
  assert (Hs : countChar c s = 0%nat) by lia.
  specialize (IH Hs).
  destruct (stripTrailingZeros s) as [|c' r].
  - destruct (Ascii.eqb a "0"); cbn [countChar]; [reflexivity | lia].
  - cbn [countChar] in IH |- *. lia.
Qed.

Lemma countChar_exponentNotation (c : ascii) (m : Z) :
  (nat_of_ascii c < 45)%nat -> (nat_of_ascii c <> 43)%nat ->
  countChar c (exponentNotation m) = 0%nat.
Proof.
  intros Hc Hp. unfold exponentNotation. cbv zeta.
  assert (Hd : countChar c (decimalOfZ m) = 0%nat)
    by (unfold decimalOfZ; now apply countChar_NilZero).
  pose proof (countChar_strip c _ Hd) as Hs.
  set (k := (String.length (decimalOfZ m) - 1)%nat).
  assert (Hk : countChar c (decimalOfNat k) = 0%nat)
    by (unfold decimalOfNat; now apply countChar_NilZero).
  destruct (stripTrailingZeros (decimalOfZ m)) as [|d [|d' rest]].
  - cbn [countChar]. now rewrite not_a_separator by (exact Hc || (vm_compute; lia)).
  - cbn [countChar append] in Hs |- *.
    rewrite plus_is_not by exact Hp.
    rewrite (not_a_separator "e" c) by (exact Hc || (vm_compute; lia)). lia.
  - cbn [countChar append] in Hs |- *.
    rewrite countChar_app. cbn [countChar].
    rewrite plus_is_not by exact Hp.
    rewrite (not_a_separator "e" c), (not_a_separator "." c)
      by (exact Hc || (vm_compute; lia)).
    lia.
Qed.

Lemma countChar_toFixed (c : ascii) (x : Q) :
  (nat_of_ascii c < 45)%nat -> (nat_of_ascii c <> 43)%nat ->
  countChar c (toFixed x 2) = 0%nat.
Proof.
  intros Hc Hp. unfold toFixed. cbv zeta.
  set (ax := if Qltb x 0 then - x else x).
  set (n := Qfloor (ax * _ + _)).
  assert (H : countChar c (decimalOfZ (n / 10 ^ Z.of_nat 2) ++ "." ++ lowDigits 2 n) = 0%nat).
  { rewrite !countChar_app. unfold decimalOfZ.
    rewrite countChar_NilZero, countChar_lowDigits by exact Hc.
    cbn [countChar]. now rewrite not_a_separator by (exact Hc || (vm_compute; lia)). }
  assert (H' : countChar c
                 (if Qle_bool (inject_Z (10 ^ 21)) ax
                  then exponentNotation (Qfloor ax)
                  else (decimalOfZ (n / 10 ^ Z.of_nat 2) ++ "." ++ lowDigits 2 n)%string)
               = 0%nat).
  { destruct (Qle_bool (inject_Z (10 ^ 21)) ax);
      [now apply countChar_exponentNotation | exact H]. }
  destruct (Qltb x 0); [|exact H'].
  change ("-" ++ ?s)%string with (String "-" s). cbn [countChar].
  rewrite not_a_separator by (exact Hc || (vm_compute; lia)). exact H'.
Qed.

Lemma countChar_row (c : ascii) (e : BalanceEvent) :
  (nat_of_ascii c < 45)%nat -> (nat_of_ascii c <> 43)%nat ->
  countChar c (action e) = 0%nat ->
  countChar c (csvRow e) = (4 * countChar c ",")%nat.
Proof.
  intros Hc Hp Ha. unfold csvRow. rewrite countChar_join. cbn [map list_sum].
  unfold decimalOfNat.
  rewrite countChar_NilZero, !countChar_toFixed, Ha by assumption.
  assert (Hq : countChar c match eprice e with
                           | Some p => toFixed p 2
                           | None => "N/A"%string
                           end = 0%nat).
  { destruct (eprice e); [now apply countChar_toFixed|].
    cbn [countChar].
    now rewrite !not_a_separator by (exact Hc || (vm_compute; lia)). }
  rewrite Hq. unfold list_sum. cbn [fold_right]. lia.
Qed.

Lemma countChar_action (c : ascii) (e : BalanceEvent) :
  (nat_of_ascii c < 45)%nat ->
  e = initialEntry \/ loggedByTick e -> countChar c (action e) = 0%nat.
Proof.
  intros Hc [-> | ([-> | ->] & _)]; cbn [action initialEntry countChar];
    now rewrite !not_a_separator by (exact Hc || (vm_compute; lia)).
Qed.

Lemma countChar_rows (history : list BalanceEvent) :
  Forall (fun e => countChar (ascii_of_nat 10) (csvRow e) = 0%nat) history ->
  list_sum (map (fun y => (countChar (ascii_of_nat 10) newline +
                           countChar (ascii_of_nat 10) y)%nat)
                (map csvRow history)) = List.length history.
Proof.
  induction 1 as [|e es He _ IH]; [reflexivity|].
  cbn [map List.length]. unfold list_sum in *. cbn [fold_right].
  rewrite IH, He. reflexivity.
Qed.

(** X17.  The exported text is well formed for every history the component can
    hold: each row has exactly four commas and no line feed, the header has
    four commas, and the text has one line feed per entry, that is, one line
    more than there are entries; when the export button is shown there are
    at least two entries to export. *)
Theorem exported_csv_is_well_formed (es : list Event) :
  let r := hooks (run es initialComponent) in
  let text := exportCashBalanceData r in
  countChar "," csvHeader = 4%nat /\
  Forall (fun e => countChar "," (csvRow e) = 4%nat /\
                   countChar (ascii_of_nat 10) (csvRow e) = 0%nat)
         (cashBalanceHistory r) /\
  countChar (ascii_of_nat 10) text = List.length (cashBalanceHistory r) /\
  (exportShown r = true -> (2 <= countChar (ascii_of_nat 10) text)%nat).
Proof.
  cbv zeta.
  destruct (reachable es) as [_ (rest & Hh & Hrest)].
  set (r := hooks (run es initialComponent)) in *.
  assert (Hall : Forall (fun e => e = initialEntry \/ loggedByTick e)
                        (cashBalanceHistory r)).
  { rewrite Hh. constructor; [now left|].
    eapply Forall_impl; [|exact Hrest]. intros e He. now right. }
  assert (Hrows : Forall (fun e => countChar "," (csvRow e) = 4%nat /\
                                   countChar (ascii_of_nat 10) (csvRow e) = 0%nat)
                         (cashBalanceHistory r)).
  { eapply Forall_impl; [|exact Hall]. intros e He. split.
    - rewrite countChar_row;
        [reflexivity | vm_compute; lia | vm_compute; lia |].
      apply countChar_action; [vm_compute; lia | exact He].
    - rewrite countChar_row;
        [reflexivity | vm_compute; lia | vm_compute; lia |].
      apply countChar_action; [vm_compute; lia | exact He]. }
  assert (Hlines : countChar (ascii_of_nat 10) (exportCashBalanceData r) =
                   List.length (cashBalanceHistory r)).
  { unfold exportCashBalanceData, csvContent. rewrite countChar_join.
    rewrite countChar_rows.
    - reflexivity.
    - eapply Forall_impl; [|exact Hrows]. intros e [_ He]. exact He. }
  split; [reflexivity|]. split; [exact Hrows|]. split; [exact Hlines|].
  intros Hshown. rewrite Hlines.
  unfold exportShown in Hshown. apply andb_true_iff in Hshown.
  destruct Hshown as [_ Hlen]. apply Nat.ltb_lt in Hlen. lia.
Qed.

(** ** A run started without shares *)

Lemma executeTrade_without_captured_shares (cl : Render) (p : Q) (st : Render) :
  sharesHeld cl <= 0 ->
  (tradeStatus (executeTrade cl p st) = BUYING \/
   tradeStatus (executeTrade cl p st) = IDLE \/
   tradeStatus (executeTrade cl p st) = tradeStatus st) /\
  (0 <= microTradeAmount cl ->
   cashBalance (executeTrade cl p st) <= cashBalance st).
Proof.
  intros Hsh. apply Qltb_ge in Hsh. unfold executeTrade. rewrite Hsh.
  destruct (Qltb p (anchorPrice cl));
    [destruct (Qle_bool (microTradeAmount cl) (cashBalance cl))
    |destruct (Qltb (anchorPrice cl) p)];
    cbn [tradeStatus cashBalance setTradeStatus setSharesHeld setCashBalance];
    (split; [tauto | intros Ha; lra]).
Qed.

Lemma ticks_without_captured_shares (h0 : Render) (bound : Q) (randoms : list Q) :
  sharesHeld h0 <= 0 ->
  forall d,
    timerRef d = Some h0 ->
    tradeStatus (hooks d) = IDLE \/ tradeStatus (hooks d) = BUYING ->
    (0 <= microTradeAmount h0 -> cashBalance (hooks d) <= bound) ->
    (tradeStatus (hooks (run (map Tick randoms) d)) = IDLE \/
     tradeStatus (hooks (run (map Tick randoms) d)) = BUYING) /\
    (0 <= microTradeAmount h0 ->
     cashBalance (hooks (run (map Tick randoms) d)) <= bound).
Proof.
  intros Hsh. unfold run.
  induction randoms as [|r rs IH]; intros d Ht Hs Hc; cbn [map fold_left].
  - now split.
  - rewrite (step_Tick d h0 r Ht).
    destruct (tickAt_trade h0 (generatePrice h0 r) (hooks d)) as (E1 & E2 & _).
    destruct (executeTrade_without_captured_shares h0 (generatePrice h0 r)
                (setPriceData (appendPricePoint (generatePrice h0 r))
                   (setCurrentPrice (generatePrice h0 r) (hooks d))) Hsh)
      as [Hst Hcash].
    rewrite <- E1 in Hst. rewrite <- E2 in Hcash.
    cbn [tradeStatus cashBalance setPriceData setCurrentPrice] in Hst, Hcash.
    apply IH.
    + reflexivity.
    + cbn [hooks]. unfold intervalCallback.
      destruct Hst as [H | [H | H]]; rewrite H; tauto.
    + cbn [hooks]. unfold intervalCallback. intros Ha.
      specialize (Hc Ha). specialize (Hcash Ha). lra.
Qed.

(** X18.  A run started right after a reset never sells, whatever the draws:
    the callback keeps seeing the zero shares of the reset.  The status is
    only ever IDLE or BUYING, and with a non-negative trade amount the cash
    never rises above 1000. *)
Theorem fresh_run_never_sells (c : Component) (randoms : list Q) :
  let c' := run (Reset :: Start :: map Tick randoms) c in
  (tradeStatus (hooks c') = IDLE \/ tradeStatus (hooks c') = BUYING) /\
  (0 <= microTradeAmount (hooks c) -> cashBalance (hooks c') <= 1000).
Proof.
  cbv zeta.
  change (run (Reset :: Start :: map Tick randoms) c)
    with (run (map Tick randoms) (step (step c Reset) Start)).
  rewrite step_Reset, step_Start_stopped by reflexivity.
  apply (ticks_without_captured_shares (hooks (resetSimulation c)) 1000 randoms).
  - cbn. apply Qle_refl.
  - reflexivity.
  - left. reflexivity.
  - intros _. cbn. apply Qle_refl.
Qed.

(** ** The history updater after a balance that is not zero *)

(** X19.  After a last logged balance that is not zero the updater compares with
    that balance: it leaves the history alone when the projected balance
    equals it, and otherwise appends one entry holding the projected
    balance, its difference to the last logged balance, the captured status
    and the price of the tick. *)
Theorem history_update_after_nonzero_balance
        (cl : Render) (p : Q) (prev : list BalanceEvent) (e : BalanceEvent) :
  ~ balance e == 0 ->
  (projectedBalance cl p == balance e ->
   recordBalance cl p (prev ++ [e]) = prev ++ [e]) /\
  (~ projectedBalance cl p == balance e ->
   recordBalance cl p (prev ++ [e]) =
     (prev ++ [e]) ++
       [ {| etime := List.length (prev ++ [e]);
            balance := projectedBalance cl p;
            change := projectedBalance cl p - balance e;
            action := statusName (tradeStatus cl);
            eprice := Some p |} ]).
Proof.
  intros Hnz.
  assert (HL : lastBalanceOf (prev ++ [e]) = balance e).
  { rewrite lastBalanceOf_snoc. destruct (Qeq_bool (balance e) 0) eqn:E; [|reflexivity].
    apply Qeq_bool_iff in E. contradiction. }
  destruct (recordBalance_cases cl p (prev ++ [e])) as [[H1 H2] | [H1 H2]];
    rewrite HL in *; split; intros H; try contradiction; exact H2.
Qed.

Lemma history_update_after_nonzero_balance_witness :
  (projectedBalance initialRender 90 == balance initialEntry ->
   recordBalance initialRender 90 ([] ++ [initialEntry]) = [] ++ [initialEntry]) /\
  (~ projectedBalance initialRender 90 == balance initialEntry ->
   recordBalance initialRender 90 ([] ++ [initialEntry]) =
     ([] ++ [initialEntry]) ++
       [ {| etime := List.length ([] ++ [initialEntry]);
            balance := projectedBalance initialRender 90;
            change := projectedBalance initialRender 90 - balance initialEntry;
            action := statusName (tradeStatus initialRender);
            eprice := Some 90 |} ]).
Proof.
  apply (history_update_after_nonzero_balance initialRender 90 [] initialEntry).
  vm_compute. discriminate.
Defined.

(** ** The statements above at concrete inputs *)

Lemma projected_change_is_executed_change_witness :
  projectedBalance initialRender 90 == cashBalance (tickAt initialRender 90 initialRender).
Proof.
  apply (proj2 (projected_change_is_executed_change initialRender 90 initialRender)).
  reflexivity.
Defined.

Lemma zone_label_and_areas_witness :
  let r := hooks (run [Start; Tick 0; Pause] initialComponent) in
  zoneLabel r = "SELL ZONE"%string /\
  buyAreaDisplayed r = false /\ sellAreaDisplayed r = false.
Proof.
  apply (proj2 zone_label_and_areas [Start; Tick 0; Pause]).
  vm_compute. reflexivity.
Defined.

Lemma y_axis_covers_nonnegative_data_witness :
  inject_Z (yAxisMin 95) <= 95 /\
  105 <= inject_Z (yAxisMax 105) /\
  - (100) < inject_Z (yAxisMin (- (100))) /\
  inject_Z (yAxisMax (- (100))) < - (100).
Proof.
  destruct (y_axis_covers_nonnegative_data 95 105) as (H1 & H2 & _).
  destruct (y_axis_covers_nonnegative_data (- (100)) (- (100))) as (_ & _ & H3 & H4).
  split; [apply H1; vm_compute; discriminate|].
  split; [apply H2; vm_compute; discriminate|].
  split; [apply H3 | apply H4]; vm_compute; discriminate.
Defined.

Lemma exported_csv_is_well_formed_witness :
  let r := hooks (run [Start; Tick 0; Pause] initialComponent) in
  (2 <= countChar (ascii_of_nat 10) (exportCashBalanceData r))%nat.
Proof.
  apply (proj2 (proj2 (proj2 (exported_csv_is_well_formed [Start; Tick 0; Pause])))).
  vm_compute. reflexivity.
Defined.

Lemma fresh_run_never_sells_witness :
  cashBalance (hooks (run (Reset :: Start :: map Tick [0; 1]) initialComponent)) <= 1000.
Proof.
  apply (proj2 (fresh_run_never_sells initialComponent [0; 1])).
  vm_compute. discriminate.
Defined.
